(** * leabra7.log: the dataframe buffer and the logger

    A shallow embedding of [leabra7/log.py].  A [DataFrameBuffer] is a
    value with the two fields of the class; its methods are functions on
    such values.  The objects a [Logger] refers to (its target, its
    buffer) live in an explicit store, and the methods of [Logger] are
    computations in a small state-and-exception monad over that store. *)

From Equations Require Import Equations.
From stdpp Require Import gmap strings list fin_maps functions.


(** ** Exceptions and results *)

(** The only exception the module documents is [ValueError] (raised by
    [observe] on an attribute that is not loggable; pandas raises it too
    when the columns it is given differ in length). *)
Inductive exn : Type :=
| ValueError (msg : string).

Inductive result (R : Type) : Type :=
| Ok (r : R)
| Raise (e : exn).
Arguments Ok {R} r.
Arguments Raise {R} e.

(** ** pandas

    The library is not part of the repository; what follows is the part of
    its behaviour that [to_df] relies on. *)

Module pandas.

(** A cell of a frame holds the value that is read back from it; [None]
    stands for pandas' null ([None] in an object column, [NaN] in a
    numeric one).

    When a frame is built from lists, pandas infers a dtype for every
    column on its own and converts the cells to it.  The conversion,
    [infer], is left open; what is used of it is that a column keeps its
    number of cells, and that a column all of whose cells hold one and the
    same value is left as it is. *)
Class Inference (A : Type) : Type := {
  infer : list (option A) → list (option A);
  length_infer : ∀ l, List.length (infer l) = List.length l;
  infer_replicate : ∀ n v, infer (replicate n v) = replicate n v;
}.

Section frame.
Context {A : Type} `{!Inference A}.

(** What the rest of the development needs of a [pandas.DataFrame]: its
    columns by name and its number of rows. *)
Record DataFrame : Type := mk {
  columns : gmap string (list (option A));
  nrows : nat;
}.

Definition column_lengths (d : gmap string (list (option A))) : list nat :=
  (λ kv, List.length kv.2) <$> map_to_list d.

(** [pd.DataFrame.from_dict(d)] for a dict of lists: one column per key,
    its cells converted to the dtype inferred for it; the index is the
    common length of the lists; a dict without keys gives the empty frame,
    and lists of different lengths are refused with a [ValueError]. *)
Definition from_dict (d : gmap string (list (option A))) : result DataFrame :=
  match column_lengths d with
  | [] => Ok {| columns := infer <$> d; nrows := 0 |}
  | n :: ns =>
      if forallb (Nat.eqb n) ns
      then Ok {| columns := infer <$> d; nrows := n |}
      else Raise (ValueError "All arrays must be of the same length")
  end.
End frame.
Arguments DataFrame : clear implicits.

(** *** Columns of Python integers

    The double nearest to an integer (ties to the even significand of 53
    bits), as an integer. *)
Definition float64_of_int (z : Z) : Z :=
  let a := Z.abs z in
  if (a <? 2 ^ 53)%Z then z
  else
    let e := (Z.log2 a - 52)%Z in
    let q := (a / 2 ^ e)%Z in
    let r := (a mod 2 ^ e)%Z in
    let half := (2 ^ (e - 1))%Z in
    let q' := if (r <? half)%Z then q
              else if (half <? r)%Z then (q + 1)%Z
              else if Z.even q then q else (q + 1)%Z in
    (Z.sgn z * (q' * 2 ^ e))%Z.

Definition is_null (x : option Z) : bool :=
  match x with None => true | Some _ => false end.

Definition in_int64 (x : option Z) : bool :=
  match x with
  | None => true
  | Some z => ((- 2 ^ 63 <=? z) && (z <? 2 ^ 63))%Z
  end.

(** A list of integers without [None] becomes an integer column with the
    same values; with a [None] in it the column becomes [float64]: [None]
    is [NaN] and an integer is the double nearest to it.  This is for
    integers of the [int64] range; a column with an integer outside it is
    not modelled and is left as it is here. *)
Definition infer_int (l : list (option Z)) : list (option Z) :=
  if existsb is_null l && forallb in_int64 l
  then (λ x : option Z, float64_of_int <$> x) <$> l
  else l.

#[global] Instance int_inference : Inference Z.
Proof.
  refine {| infer := infer_int |}.
  - intros l. unfold infer_int. destruct (_ && _); [|done].
    apply length_fmap.
  - intros n v. unfold infer_int. destruct (_ && _) eqn:Hnull; [|done].
    destruct v as [z|]; [|by rewrite fmap_replicate].
    apply andb_prop in Hnull as [Hnull _].
    assert (existsb is_null (replicate n (Some z)) = false) as Hno.
    { clear. induction n as [|n IH]; simpl; [done|exact IH]. }
    congruence.
Defined.

End pandas.

(** ** DataFrameBuffer *)

Module DataFrameBuffer.
Section buffer.
(** [Any]: a cell holds Python's [None] or some other value, whose type
    [A] is left open. *)
Context {A : Type}.

(** [self.length] and [self.buf]; [buf] is a [defaultdict] whose factory
    reads [self.length] when a missing key is looked up. *)
Record t : Type := mk {
  length : nat;
  buf : gmap string (list (option A));
}.

(** [__init__] *)
Definition __init__ : t := {| length := 0; buf := ∅ |}.

(** The factory [new]: [[None] * self.length]. *)
Definition new (b : t) : list (option A) := replicate (length b) None.

(** One iteration of the loop of [append]: [self.buf[k].append(v)].
    A missing key is first bound to [new()]. *)
Definition append_obs (b : t) (kv : string * option A) : t :=
  let col := default (new b) (buf b !! kv.1) in
  {| length := length b; buf := <[kv.1 := col ++ [kv.2]]> (buf b) |}.

(** [while len(v) < self.length: v.append(None)] *)
Equations? pad_column (n : nat) (v : list (option A)) : list (option A)
  by wf (n - List.length v) lt :=
  pad_column n v with decide (List.length v < n) => {
    | left _ := pad_column n (v ++ [None]);
    | right _ := v }.
Proof. rewrite length_app. simpl. lia. Qed.

(** [_pad] *)
Definition _pad (b : t) : t :=
  {| length := length b; buf := pad_column (length b) <$> buf b |}.

(** [append] *)
Definition append (b : t) (row : list (string * option A)) : t :=
  let b1 := foldl append_obs b row in
  let b2 := {| length := length b1 + 1; buf := buf b1 |} in
  _pad b2.

(** [to_df] *)
Definition to_df `{!pandas.Inference A} (b : t) : result (pandas.DataFrame A) :=
  pandas.from_dict (buf b).

(** A run of [append] calls, oldest first. *)
Definition appends (b : t) (rows : list (list (string * option A))) : t :=
  foldl append b rows.

(** *** Vocabulary of the statements *)

(** The values [row] carries for the name [k], in the order of the row. *)
Definition values_of (k : string) (row : list (string * option A)) : list (option A) :=
  (filter (λ kv, kv.1 = k) row).*2.

(** Every column has exactly as many cells as rows were appended. *)
Definition aligned (b : t) : Prop :=
  map_Forall (λ _ v, List.length v = length b) (buf b).

(** The names of a row are pairwise distinct. *)
Definition distinct_names (row : list (string * option A)) : Prop :=
  NoDup row.*1.

(** What [row] says about the name [k]: the (first) value it carries for
    it, [None] when it does not name it. *)
Definition cell (k : string) (row : list (string * option A)) : option A :=
  match values_of k row with
  | [] => None
  | v :: _ => v
  end.

(** *** Work done by [append]

    The unit of work is one list cell written ([list.append], or one cell
    of the list built by [[None] * self.length]) or one column visited by
    the loop of [_pad]. *)

(** [self.buf[k].append(v)]: the cell for [v], and the cells of [new()]
    when the key was missing. *)
Definition append_obs_cost (b : t) (kv : string * option A) : nat :=
  match buf b !! kv.1 with
  | Some _ => 1
  | None => length b + 1
  end.

(** The loop [for k, v in row]. *)
Fixpoint row_cost (b : t) (row : list (string * option A)) : nat :=
  match row with
  | [] => 0
  | kv :: row' => append_obs_cost b kv + row_cost (append_obs b kv) row'
  end.

(** The [while] loop on one column: one cell per iteration. *)
Equations? pad_column_cost (n : nat) (v : list (option A)) : nat
  by wf (n - List.length v) lt :=
  pad_column_cost n v with decide (List.length v < n) => {
    | left _ := 1 + pad_column_cost n (v ++ [None]);
    | right _ := 0 }.
Proof. rewrite length_app. simpl. lia. Qed.

(** [_pad]: every column is visited, then padded. *)
Definition _pad_cost (b : t) : nat :=
  sum_list_with (λ kv, 1 + pad_column_cost (length b) kv.2) (map_to_list (buf b)).

Definition append_cost (b : t) (row : list (string * option A)) : nat :=
  let b1 := foldl append_obs b row in
  let b2 := {| length := length b1 + 1; buf := buf b1 |} in
  row_cost b row + _pad_cost b2.

(** The work of a run of [append] calls. *)
Fixpoint appends_cost (b : t) (rows : list (list (string * option A))) : nat :=
  match rows with
  | [] => 0
  | row :: rows' => append_cost b row + appends_cost (append b row) rows'
  end.

(** The number of columns of [b] that [row] does not name, and the number
    of names of [row] that [b] does not have yet. *)
Definition missing (b : t) (row : list (string * option A)) : nat :=
  size (dom (buf b) ∖ list_to_set row.*1 : gset string).

Definition introduced (b : t) (row : list (string * option A)) : nat :=
  size (list_to_set row.*1 ∖ dom (buf b) : gset string).

(** What a run of calls would be allowed if each call were charged a
    constant per observation of its row, per missing column and per
    call. *)
Fixpoint appends_budget (b : t) (rows : list (list (string * option A))) : nat :=
  match rows with
  | [] => 0
  | row :: rows' =>
      (List.length row + missing b row + 1) + appends_budget (append b row) rows'
  end.

End buffer.
Arguments t : clear implicits.
End DataFrameBuffer.

(** ** ObservableMixin *)

Module ObservableMixin.
(** An object of a class that inherits from [ObservableMixin]:
    [__init__] stores [name]; the remaining fields, of type [T], belong
    to the subclass. *)
Record obj (T : Type) : Type := mk {
  name : string;
  fields : T;
}.
Arguments mk {T} name fields.
Arguments name {T} o.
Arguments fields {T} o.

(** The abstract method [observe(self, attr)].  It returns the list of
    observations or raises; as a method it may also update [self], so
    the object after the call is part of its result. *)
Class Observable (A T : Type) : Type :=
  observe : obj T → string → obj T * result (list (string * option A)).

(** Assigning to the [name] attribute. *)
Definition set_name {T : Type} (n : string) (o : obj T) : obj T :=
  {| name := n; fields := fields o |}.
End ObservableMixin.

(** ** Logger *)

Module Logger.
Import ObservableMixin.
Section logger.
Context {A T : Type} `{!Observable A T} `{!pandas.Inference A}.

Abbreviation loc := nat.

(** The store: the target objects and the buffer objects, by reference,
    and the next free reference for a new buffer. *)
Record world : Type := mkWorld {
  targets : loc → obj T;
  buffers : loc → DataFrameBuffer.t A;
  next : loc;
}.

(** Computations that read and update the store and may raise. *)
Definition M (X : Type) : Type := world → world * result X.

#[global] Instance M_ret : MRet M := λ X x w, (w, Ok x).
#[global] Instance M_bind : MBind M := λ X Y f m w,
  match m w with
  | (w', Ok x) => f x w'
  | (w', Raise e) => (w', Raise e)
  end.

(** [for x in xs: acc = body(acc, x)] *)
Fixpoint for_each {X Y : Type} (xs : list X) (acc : Y) (body : Y → X → M Y) : M Y :=
  match xs with
  | [] => mret acc
  | x :: xs' => acc' ← body acc x; for_each xs' acc' body
  end.

(** [target.name] *)
Definition get_name (l : loc) : M string :=
  λ w, (w, Ok (name (targets w l))).

(** [target.name = n] *)
Definition rename (l : loc) (n : string) : M unit :=
  λ w, ({| targets := <[l := set_name n (targets w l)]> (targets w);
           buffers := buffers w; next := next w |}, Ok ()).

(** [target.observe(a)] *)
Definition call_observe (l : loc) (a : string) : M (list (string * option A)) :=
  λ w, let '(o, r) := observe (targets w l) a in
       ({| targets := <[l := o]> (targets w);
           buffers := buffers w; next := next w |}, r).

(** [DataFrameBuffer()] *)
Definition new_buffer : M loc :=
  λ w, ({| targets := targets w;
           buffers := <[next w := DataFrameBuffer.__init__]> (buffers w);
           next := S (next w) |}, Ok (next w)).

(** [buffer.append(row)] *)
Definition buffer_append (l : loc) (row : list (string * option A)) : M unit :=
  λ w, ({| targets := targets w;
           buffers := <[l := DataFrameBuffer.append (buffers w l) row]> (buffers w);
           next := next w |}, Ok ()).

(** [buffer.to_df()] *)
Definition buffer_to_df (l : loc) : M (pandas.DataFrame A) :=
  λ w, (w, DataFrameBuffer.to_df (buffers w l)).

(** The fields of a [Logger].  No method assigns to them after
    [__init__]; [target] and [buffer] are references into the store,
    [target_name] is a string.  [attrs] is annotated as an iterable of
    strings and documented as a list of attribute names: a list here. *)
Record t : Type := mk {
  target : loc;
  target_name : string;
  attrs : list string;
  buffer : loc;
}.

(** [__init__] *)
Definition __init__ (target : loc) (attrs : list string) : M t :=
  n ← get_name target;
  b ← new_buffer;
  mret {| target := target; target_name := n; attrs := attrs; buffer := b |}.

(** [record] *)
Definition record (self : t) : M unit :=
  row ← for_each (attrs self) []
        (λ row a, obs ← call_observe (target self) a; mret (row ++ obs));
  buffer_append (buffer self) row.

(** [to_df] *)
Definition to_df (self : t) : M (pandas.DataFrame A) :=
  buffer_to_df (buffer self).

(** *** The driver

    One tick of the simulation, [tk]: the target is updated by the
    simulation (by [tk.1], any function of the target object), then two
    loggers record, [l2] before [l1] when [tk.2] is set.  An exception
    raised by [record] ends the run. *)
Definition update_target (l : loc) (step : obj T → obj T) : M unit :=
  λ w, ({| targets := <[l := step (targets w l)]> (targets w);
           buffers := buffers w; next := next w |}, Ok ()).

Definition tick (l1 l2 : t) (tk : (obj T → obj T) * bool) : M unit :=
  _ ← update_target (target l1) tk.1;
  if tk.2 then _ ← record l2; record l1
  else _ ← record l1; record l2.

Definition run (l1 l2 : t) (ticks : list ((obj T → obj T) * bool)) : M unit :=
  for_each ticks () (λ _ tk, tick l1 l2 tk).

(** [for _ in range(n): self.record()] *)
Definition records (self : t) (n : nat) : M unit :=
  for_each (replicate n ()) () (λ _ _, record self).

(** *** Vocabulary of the statements *)

(** The loop of [record] as the target object goes through it: the object
    after the calls of [observe], and the row built or the exception of
    the first call that raised. *)
Fixpoint observe_all (o : obj T) (attrs : list string) (row : list (string * option A))
  : obj T * result (list (string * option A)) :=
  match attrs with
  | [] => (o, Ok row)
  | a :: attrs' =>
      match observe o a with
      | (o', Ok obs) => observe_all o' attrs' (row ++ obs)
      | (o', Raise e) => (o', Raise e)
      end
  end.

(** [observed o attrs obss o']: starting from [o], the calls
    [observe(a)] for [a] in [attrs], one after the other, return the lists
    [obss] and leave the object as [o']. *)
Inductive observed : obj T → list string → list (list (string * option A)) → obj T → Prop :=
| observed_nil o : observed o [] [] o
| observed_cons o a attrs obs o' obss o'' :
    observe o a = (o', Ok obs) →
    observed o' attrs obss o'' →
    observed o (a :: attrs) (obs :: obss) o''.

(** [observe] is a read: it leaves the object as it found it. *)
Definition pure_read : Prop :=
  ∀ (o : obj T) (a : string), (observe o a).1 = o.

End logger.
Arguments world : clear implicits.
Arguments M : clear implicits.
End Logger.

(** ** A session

    Loggers are objects too.  A session holds the store and the loggers
    built so far, each known by its position in [loggers]; its events are
    the calls of the methods of [Logger] and what the simulation does to
    the targets in between.  An exception raised by a call is taken to be
    caught by the caller: the session goes on from the store the call
    left. *)

Module Session.
Import ObservableMixin.
Section session.
Context {A T : Type} `{!Observable A T} `{!pandas.Inference A}.

Record state : Type := mk {
  store : Logger.world A T;
  loggers : list Logger.t;
}.

(** [New target attrs] is [Logger(target, attrs)]; [Record r] and [ToDf r]
    are [record()] and [to_df()] on the logger at position [r];
    [Assign target f] is any assignment to the attributes of a target,
    [target.name = n] being [Assign target (set_name n)]. *)
Inductive event : Type :=
| New (target : nat) (attrs : list string)
| Record (r : nat)
| ToDf (r : nat)
| Assign (target : nat) (f : obj T → obj T).

Definition step (s : state) (ev : event) : state :=
  match ev with
  | New target attrs =>
      match Logger.__init__ target attrs (store s) with
      | (w, Ok lg) => {| store := w; loggers := loggers s ++ [lg] |}
      | (w, Raise _) => {| store := w; loggers := loggers s |}
      end
  | Record r =>
      match loggers s !! r with
      | Some lg => {| store := (Logger.record lg (store s)).1; loggers := loggers s |}
      | None => s
      end
  | ToDf r =>
      match loggers s !! r with
      | Some lg => {| store := (Logger.to_df lg (store s)).1; loggers := loggers s |}
      | None => s
      end
  | Assign target f =>
      {| store := (Logger.update_target target f (store s)).1; loggers := loggers s |}
  end.

Definition exec (s : state) (evs : list event) : state := foldl step s evs.

End session.
Arguments state : clear implicits.
Arguments event : clear implicits.
End Session.

(** ** A sample target

    A two-unit layer in the manner of the ones the tests observe; it is
    used to run the definitions above on concrete inputs. *)

Module Sample.
Import ObservableMixin.

Record layer : Type := mk {
  unit0_act : Z;
  unit1_act : Z;
}.

#[export] Instance layer_observe : Observable Z layer := λ self attr,
  if decide (attr = "unit_act") then
    (self, Ok [("unit0_act", Some (unit0_act (fields self)));
               ("unit1_act", Some (unit1_act (fields self)))])
  else if decide (attr = "avg_act") then
    (self, Ok [("avg_act", Some ((unit0_act (fields self) + unit1_act (fields self)) / 2)%Z)])
  else (self, Raise (ValueError attr)).

(** Names, no two alike: the empty name, then [x], [xx], ... *)
Fixpoint fresh_name (i : nat) : string :=
  match i with
  | 0 => EmptyString
  | S i' => "x" +:+ fresh_name i'
  end.

(** A row that observes [n] attributes, none of them with a value. *)
Definition wide_row (n : nat) : list (string * option Z) :=
  (λ i, (fresh_name i, None)) <$> seq 0 n.

(** A store with the layer [in] at every reference and no buffer yet. *)
Definition w0 : Logger.world Z layer :=
  {| Logger.targets := λ _, {| name := "in"; fields := {| unit0_act := 0; unit1_act := 4 |} |};
     Logger.buffers := λ _, DataFrameBuffer.__init__;
     Logger.next := 0 |}.

End Sample.

(** ** A sample target that changes when observed *)

Module Counter.
Import ObservableMixin.

(** A target that counts the calls of [observe] in its only field and
    reports the count; it does not know the attribute [bogus]. *)
Definition counter_observe : Observable Z nat := λ self attr,
  let self' := {| name := name self; fields := S (fields self) |} in
  if decide (attr = "bogus") then (self', Raise (ValueError attr))
  else (self', Ok [(attr, Some (Z.of_nat (fields self)))]).

(** A store with a counter at zero at every reference. *)
Definition w0 : Logger.world Z nat :=
  {| Logger.targets := λ _, {| name := "counter"; fields := 0 |};
     Logger.buffers := λ _, DataFrameBuffer.__init__;
     Logger.next := 0 |}.

End Counter.


(** * Properties *)

(** ** The buffer *)

Section buffer_facts.
Context {A : Type}.
Implicit Types (b : DataFrameBuffer.t A) (row : list (string * option A)).
Implicit Types (rows : list (list (string * option A))) (k : string).
Implicit Types (v col : list (option A)).

Lemma pad_column_eq n v :
  DataFrameBuffer.pad_column n v = v ++ replicate (n - List.length v) None.
Proof.
  funelim (DataFrameBuffer.pad_column n v).
  - rewrite H, length_app. simpl.
    rewrite <- app_assoc. f_equal.
    replace (n - List.length v) with (S (n - (List.length v + 1))) by lia.
    reflexivity.
  - replace (n - List.length v) with 0 by lia. simpl. by rewrite app_nil_r.
Qed.

Lemma length_pad_column n v :
  List.length (DataFrameBuffer.pad_column n v) = max n (List.length v).
Proof. rewrite pad_column_eq, length_app, length_replicate. lia. Qed.

Lemma values_of_nil k row : k ∉ row.*1 → DataFrameBuffer.values_of k row = [].
Proof.
  unfold DataFrameBuffer.values_of. induction row as [|[k' x] row IH]; simpl; [done|].
  intros Hk. apply not_elem_of_cons in Hk as [Hne Hk].
  rewrite filter_cons_False by (simpl; congruence). auto.
Qed.

Lemma values_of_cons_eq k x row : DataFrameBuffer.values_of k ((k, x) :: row) = x :: DataFrameBuffer.values_of k row.
Proof. unfold DataFrameBuffer.values_of. by rewrite filter_cons_True. Qed.

Lemma values_of_cons_ne k k' x row : k' ≠ k → DataFrameBuffer.values_of k ((k', x) :: row) = DataFrameBuffer.values_of k row.
Proof. intros. unfold DataFrameBuffer.values_of. by rewrite filter_cons_False. Qed.

Lemma values_of_distinct k row :
  DataFrameBuffer.distinct_names row → k ∈ row.*1 → List.length (DataFrameBuffer.values_of k row) = 1.
Proof.
  unfold DataFrameBuffer.distinct_names. induction row as [|[k' x] row IH]; simpl.
  - intros _ Hk. by apply elem_of_nil in Hk.
  - intros Hnd Hk. apply list.NoDup_cons in Hnd as [Hk' Hnd].
    destruct (decide (k' = k)) as [->|Hne].
    + rewrite values_of_cons_eq, values_of_nil by done. done.
    + rewrite values_of_cons_ne by done. apply IH; [done|].
      apply elem_of_cons in Hk as [?|?]; [congruence|done].
Qed.

(** The loop of [append] leaves the row count alone. *)
Lemma length_foldl_append_obs b row :
  DataFrameBuffer.length (foldl DataFrameBuffer.append_obs b row) = DataFrameBuffer.length b.
Proof. revert b. induction row as [|kv row IH]; intros b; simpl; [done|]. by rewrite IH. Qed.

(** A column the row names receives the row's values for it, after the
    cells it had or after the backfill; the others are untouched. *)
Lemma lookup_foldl_append_obs b row k :
  DataFrameBuffer.buf (foldl DataFrameBuffer.append_obs b row) !! k =
  if decide (k ∈ row.*1)
  then Some (default (DataFrameBuffer.new b) (DataFrameBuffer.buf b !! k) ++ DataFrameBuffer.values_of k row)
  else DataFrameBuffer.buf b !! k.
Proof.
  revert b. induction row as [|[k' x] row IH]; intros b.
  - done.
  - cbn [foldl]. rewrite IH. unfold DataFrameBuffer.new.
    cbn [DataFrameBuffer.length DataFrameBuffer.buf DataFrameBuffer.append_obs fst snd fmap list_fmap].
    destruct (decide (k' = k)) as [->|Hne].
    + rewrite lookup_insert_eq, values_of_cons_eq.
      rewrite (decide_True (P := k ∈ k :: row.*1)) by (apply elem_of_cons; by left).
      case_decide as Hin; cbn [default].
      * unfold DataFrameBuffer.new, id. by rewrite <- app_assoc.
      * unfold DataFrameBuffer.new, id. by rewrite values_of_nil.
    + rewrite lookup_insert_ne, values_of_cons_ne by done.
      case_decide as Hin.
      * by rewrite decide_True by (apply elem_of_cons; by right).
      * rewrite decide_False; [done|].
        intros [?|?]%elem_of_cons; [congruence|done].
Qed.

Lemma length_append b row :
  DataFrameBuffer.length (DataFrameBuffer.append b row) = DataFrameBuffer.length b + 1.
Proof. unfold DataFrameBuffer.append. simpl. by rewrite length_foldl_append_obs. Qed.

Lemma lookup_append b row k :
  DataFrameBuffer.buf (DataFrameBuffer.append b row) !! k =
  DataFrameBuffer.pad_column (DataFrameBuffer.length b + 1) <$>
    (if decide (k ∈ row.*1)
     then Some (default (DataFrameBuffer.new b) (DataFrameBuffer.buf b !! k) ++ DataFrameBuffer.values_of k row)
     else DataFrameBuffer.buf b !! k).
Proof.
  unfold DataFrameBuffer.append, DataFrameBuffer._pad. simpl.
  by rewrite lookup_fmap, length_foldl_append_obs, lookup_foldl_append_obs.
Qed.

Lemma buf_append_nil b :
  DataFrameBuffer.buf (DataFrameBuffer.append b []) =
  DataFrameBuffer.pad_column (DataFrameBuffer.length b + 1) <$> DataFrameBuffer.buf b.
Proof. done. Qed.

Lemma length_appends b rows :
  DataFrameBuffer.length (DataFrameBuffer.appends b rows) = DataFrameBuffer.length b + List.length rows.
Proof.
  unfold DataFrameBuffer.appends. revert b.
  induction rows as [|row rows IH]; intros b; simpl; [lia|].
  rewrite IH, length_append. lia.
Qed.

Lemma aligned_init : DataFrameBuffer.aligned (A := A) DataFrameBuffer.__init__.
Proof. unfold DataFrameBuffer.aligned. simpl. apply map_Forall_empty. Qed.

Lemma aligned_append b row :
  DataFrameBuffer.aligned b → DataFrameBuffer.distinct_names row → DataFrameBuffer.aligned (DataFrameBuffer.append b row).
Proof.
  intros Hb Hrow k v. rewrite lookup_append, length_append.
  case_decide as Hin; simpl.
  - intros [= <-]. rewrite length_pad_column, length_app.
    rewrite (values_of_distinct k row) by done.
    destruct (DataFrameBuffer.buf b !! k) as [col|] eqn:Hk; simpl.
    + rewrite (Hb k col Hk). lia.
    + unfold DataFrameBuffer.new. rewrite length_replicate. lia.
  - destruct (DataFrameBuffer.buf b !! k) as [col|] eqn:Hk; simpl; [|done].
    intros [= <-]. rewrite length_pad_column, (Hb k col Hk). lia.
Qed.

Lemma aligned_appends b rows :
  DataFrameBuffer.aligned b → Forall DataFrameBuffer.distinct_names rows → DataFrameBuffer.aligned (DataFrameBuffer.appends b rows).
Proof.
  unfold DataFrameBuffer.appends. intros Hb Hrows. revert b Hb.
  induction Hrows as [|row rows Hrow Hrows IH]; intros b Hb; simpl; [done|].
  apply IH. by apply aligned_append.
Qed.

End buffer_facts.

(** ** Materialization *)

Section frame_facts.
Context {A : Type} `{!pandas.Inference A}.
Implicit Types (d : gmap string (list (option A))).

Lemma from_dict_empty :
  pandas.from_dict (A := A) ∅ = Ok {| pandas.columns := ∅; pandas.nrows := 0 |}.
Proof.
  unfold pandas.from_dict, pandas.column_lengths.
  rewrite map_to_list_empty. simpl. by rewrite fmap_empty.
Qed.

Lemma forallb_eqb_same n ns : Forall (λ m, m = n) ns → forallb (Nat.eqb n) ns = true.
Proof.
  induction 1 as [|m ns -> _ IH]; simpl; [done|].
  by rewrite Nat.eqb_refl, IH.
Qed.

(** Columns of one length [n], at least one of them: a frame of [n] rows. *)
Lemma from_dict_same_length d n :
  d ≠ ∅ → map_Forall (λ _ v, List.length v = n) d →
  pandas.from_dict d = Ok {| pandas.columns := pandas.infer <$> d; pandas.nrows := n |}.
Proof.
  intros Hne Hall. unfold pandas.from_dict, pandas.column_lengths.
  assert (Forall (λ m, m = n) ((λ kv, List.length kv.2) <$> map_to_list d)) as Hlens.
  { apply Forall_fmap, list.Forall_forall. intros [k v] Hkv%elem_of_map_to_list.
    simpl. by apply (Hall k v). }
  destruct (map_to_list d) as [|kv l] eqn:Hl.
  - by apply map_to_list_empty_iff in Hl.
  - simpl in *. apply list.Forall_cons in Hlens as [-> Hlens].
    by rewrite forallb_eqb_same.
Qed.

Lemma to_df_aligned (b : DataFrameBuffer.t A) :
  DataFrameBuffer.aligned b → DataFrameBuffer.buf b ≠ ∅ →
  DataFrameBuffer.to_df b =
    Ok {| pandas.columns := pandas.infer <$> DataFrameBuffer.buf b;
          pandas.nrows := DataFrameBuffer.length b |}.
Proof. intros Hb Hne. by apply from_dict_same_length. Qed.

Lemma to_df_total (b : DataFrameBuffer.t A) :
  DataFrameBuffer.aligned b → ∃ df, DataFrameBuffer.to_df b = Ok df.
Proof.
  intros Hb. destruct (decide (DataFrameBuffer.buf b = ∅)) as [He|Hne].
  - eexists. unfold DataFrameBuffer.to_df. rewrite He. apply from_dict_empty.
  - eexists. by apply to_df_aligned.
Qed.

End frame_facts.

(** ** Claims about the buffer *)

Section buffer_claims.
Context {A : Type} `{!pandas.Inference A}.
Implicit Types (b : DataFrameBuffer.t A) (row : list (string * option A)).
Implicit Types (rows : list (list (string * option A))) (k : string).


(** X16: when the names within each appended row are pairwise distinct,
    then after each append (after the first [i] rows, for every [i]) the
    row count is the number of rows appended and every column has exactly
    that many cells. *)
Theorem append_keeps_columns_aligned rows (i : nat) :
  Forall DataFrameBuffer.distinct_names rows →
  i ≤ List.length rows →
  let b := DataFrameBuffer.appends DataFrameBuffer.__init__ (take i rows) in
  DataFrameBuffer.length b = i ∧
  ∀ k col, DataFrameBuffer.buf b !! k = Some col →
           List.length col = DataFrameBuffer.length b.
Proof.
  intros Hrows Hi b. split.
  - subst b. rewrite length_appends, length_take. simpl. lia.
  - apply (aligned_appends DataFrameBuffer.__init__ (take i rows) aligned_init).
    by apply Forall_take.
Qed.


(** C3, as amended: after appending rows whose names are pairwise distinct
    within each row, a buffer with at least one column materializes to a
    table with one row per [append] call; a buffer without columns
    materializes to the empty table, which has no rows. *)
Theorem to_df_row_count rows :
  Forall DataFrameBuffer.distinct_names rows →
  let b := DataFrameBuffer.appends DataFrameBuffer.__init__ rows in
  (DataFrameBuffer.buf b ≠ ∅ →
   DataFrameBuffer.to_df b =
     Ok {| pandas.columns := pandas.infer <$> DataFrameBuffer.buf b;
           pandas.nrows := List.length rows |}) ∧
  (DataFrameBuffer.buf b = ∅ →
   DataFrameBuffer.to_df b = Ok {| pandas.columns := ∅; pandas.nrows := 0 |}).
Proof.
  intros Hrows b. split.
  - intros Hne. rewrite to_df_aligned; [|by apply aligned_appends, Hrows; apply aligned_init|done].
    subst b. by rewrite length_appends.
  - intros He. unfold DataFrameBuffer.to_df. rewrite He. apply from_dict_empty.
Qed.

End buffer_claims.

(** ** Concrete runs of the buffer *)

(** The docstring of [append]: an attribute that was not logged before is
    filled in with [None] for the previous time steps, and an attribute the
    row does not contain takes [None]. *)
Example append_docstring :
  let b := DataFrameBuffer.appends DataFrameBuffer.__init__
             [[("act", Some 1%Z)]; [("act", Some 2%Z); ("net", Some 5%Z)]; [("net", Some 6%Z)]] in
  DataFrameBuffer.length b = 3 ∧
  DataFrameBuffer.buf b !! "act" = Some [Some 1%Z; Some 2%Z; None] ∧
  DataFrameBuffer.buf b !! "net" = Some [None; Some 5%Z; Some 6%Z].
Proof. by vm_compute. Qed.

(** C1, at the failing input: after the one row [[(a, 1); (a, 2)]] on the
    empty buffer the column [a] has two cells and the row count is one,
    where the claim has every column as long as the row count. *)
Lemma append_duplicate_name_misaligned :
  let b := DataFrameBuffer.append DataFrameBuffer.__init__ [("a", Some 1%Z); ("a", Some 2%Z)] in
  DataFrameBuffer.buf b !! "a" = Some [Some 1%Z; Some 2%Z] ∧
  DataFrameBuffer.length b = 1 ∧
  ¬ DataFrameBuffer.aligned b.
Proof.
  split; [by vm_compute|]. split; [by vm_compute|].
  intros Hb. specialize (Hb "a" [Some 1%Z; Some 2%Z]).
  assert (2 = 1) as Habs by (apply Hb; by vm_compute). discriminate Habs.
Qed.

(** C3 fails when no column exists (one [append] of the empty row, a table
    without rows) and when a row names a column twice (one [append], a
    table of two rows). *)
Lemma materialized_rows_differ_from_calls :
  (let rows : list (list (string * option Z)) := [[]] in
   ∃ df, DataFrameBuffer.to_df (DataFrameBuffer.appends DataFrameBuffer.__init__ rows) = Ok df ∧
         pandas.nrows df = 0 ∧ pandas.nrows df ≠ List.length rows) ∧
  (let rows := [[("a", Some 1%Z); ("a", Some 2%Z)]] in
   ∃ df, DataFrameBuffer.to_df (DataFrameBuffer.appends DataFrameBuffer.__init__ rows) = Ok df ∧
         pandas.nrows df = 2 ∧ pandas.nrows df ≠ List.length rows).
Proof. split; eexists; (split; [by vm_compute|done]). Qed.

(** C5, at the failing input: after the one row
    [[(a, 1); (a, 2); (b, 3)]] on the empty buffer the columns differ in
    length and [to_df] raises, where the claim has it never fail. *)
Lemma to_df_raises_on_ragged_columns :
  ∃ msg, DataFrameBuffer.to_df
           (DataFrameBuffer.append DataFrameBuffer.__init__
              [("a", Some 1%Z); ("a", Some 2%Z); ("b", Some 3%Z)]) =
         Raise (ValueError msg).
Proof. eexists. by vm_compute. Qed.


(** C10, at the failing input: on the buffer left by the row
    [[(a, 1); (a, 2)]], whose column [a] is longer than the row count,
    appending the empty row adds no null to that column, where the claim
    has one null appended to every existing column. *)
Lemma empty_row_adds_no_null_to_long_column :
  let b := DataFrameBuffer.append DataFrameBuffer.__init__ [("a", Some 1%Z); ("a", Some 2%Z)] in
  DataFrameBuffer.buf b !! "a" = Some [Some 1%Z; Some 2%Z] ∧
  DataFrameBuffer.buf (DataFrameBuffer.append b []) !! "a" = Some [Some 1%Z; Some 2%Z] ∧
  DataFrameBuffer.buf (DataFrameBuffer.append b []) !! "a" ≠ Some [Some 1%Z; Some 2%Z; None].
Proof. repeat split; by vm_compute. Qed.

(** ** The logger *)

Section logger_facts.
Import ObservableMixin.
Context {A T : Type} `{!Observable A T} `{!pandas.Inference A}.
Implicit Types (w : Logger.world A T) (lg : Logger.t) (o : obj T).
Implicit Types (row obs : list (string * option A)) (attrs : list string).

Ltac unfold_M :=
  unfold Logger.call_observe, Logger.buffer_append, Logger.new_buffer,
    Logger.get_name, Logger.rename, Logger.update_target, Logger.buffer_to_df,
    mbind, Logger.M_bind, mret, Logger.M_ret in *.

(** The loop of [record], run in the store, is [observe_all] on the target
    object; it touches nothing but that object. *)
Lemma for_each_observe (l : nat) attrs row w :
  ∃ w', Logger.for_each attrs row
          (λ row a, obs ← Logger.call_observe l a; mret (row ++ obs)) w =
        (w', (Logger.observe_all (Logger.targets w l) attrs row).2) ∧
        Logger.targets w' l = (Logger.observe_all (Logger.targets w l) attrs row).1 ∧
        (∀ l', l' ≠ l → Logger.targets w' l' = Logger.targets w l') ∧
        Logger.buffers w' = Logger.buffers w ∧
        Logger.next w' = Logger.next w.
Proof.
  revert row w. induction attrs as [|a attrs IH]; intros row w.
  - exists w. by cbn.
  - cbn [Logger.for_each Logger.observe_all]. unfold_M.
    destruct (observe (Logger.targets w l) a) as [o [obs|e]] eqn:Hobs.
    + match goal with |- context [Logger.for_each attrs (row ++ obs) _ ?w1] =>
        destruct (IH (row ++ obs) w1) as (w' & Hrun & Ho & Hother & Hbuf & Hnext)
      end.
      cbn [Logger.targets Logger.buffers Logger.next] in *.
      rewrite fn_lookup_insert in Hrun, Ho.
      exists w'. split_and!; try done.
      intros l' Hl'. rewrite Hother by done. by rewrite fn_lookup_insert_ne.
    + eexists. split; [reflexivity|]. cbn. split_and!; try done.
      * by rewrite fn_lookup_insert.
      * intros l' Hl'. by rewrite fn_lookup_insert_ne.
Qed.

(** What one call of [record] does to the store. *)
Lemma record_spec lg w :
  ∃ w', Logger.targets w' (Logger.target lg) =
          (Logger.observe_all (Logger.targets w (Logger.target lg)) (Logger.attrs lg) []).1 ∧
        (∀ l', l' ≠ Logger.target lg → Logger.targets w' l' = Logger.targets w l') ∧
        Logger.next w' = Logger.next w ∧
        match (Logger.observe_all (Logger.targets w (Logger.target lg)) (Logger.attrs lg) []).2 with
        | Ok row =>
            Logger.record lg w = (w', Ok ()) ∧
            Logger.buffers w' =
              <[Logger.buffer lg :=
                  DataFrameBuffer.append (Logger.buffers w (Logger.buffer lg)) row]>
                (Logger.buffers w)
        | Raise e =>
            Logger.record lg w = (w', Raise e) ∧
            Logger.buffers w' = Logger.buffers w
        end.
Proof.
  destruct (for_each_observe (Logger.target lg) (Logger.attrs lg) [] w)
    as (w1 & Hrun & Ho & Hother & Hbuf & Hnext).
  destruct (Logger.observe_all _ _ _) as [o' [row|e]]; cbn [fst snd] in *;
    unfold Logger.record, mbind, Logger.M_bind in *; rewrite Hrun.
  - unfold Logger.buffer_append. eexists. split_and!; [| | |reflexivity|]; cbn; try done.
    by rewrite Hbuf.
  - exists w1. by split_and!.
Qed.

Lemma observed_observe_all o attrs obss o' row :
  Logger.observed o attrs obss o' →
  Logger.observe_all o attrs row = (o', Ok (row ++ concat obss)).
Proof.
  intros Hobs. revert row.
  induction Hobs as [o|o a attrs obs o1 obss o2 Hcall _ IH]; intros row; simpl.
  - by rewrite app_nil_r.
  - by rewrite Hcall, IH, app_assoc.
Qed.

Lemma observed_then_raise o pre obss o1 a o2 e post row :
  Logger.observed o pre obss o1 →
  observe o1 a = (o2, Raise e) →
  Logger.observe_all o (pre ++ a :: post) row = (o2, Raise e).
Proof.
  intros Hobs Hraise. revert row.
  induction Hobs as [o|o a' attrs obs o1' obss o1 Hcall _ IH]; intros row; simpl.
  - by rewrite Hraise.
  - rewrite Hcall. by apply IH.
Qed.

Lemma pure_read_observe_all o attrs row :
  Logger.pure_read → (Logger.observe_all o attrs row).1 = o.
Proof.
  intros Hpure. revert o row. induction attrs as [|a attrs IH]; intros o row; simpl; [done|].
  specialize (Hpure o a). destruct (observe o a) as [o' [obs|e]]; simpl in *; subst o'; [|done].
  apply IH.
Qed.

(** C4: when one of the calls of [observe] raises (after the calls for the
    attributes [pre] before it returned), [record] raises that exception
    and the buffers of the store are what they were: no row, no column,
    no change of the row count. *)
Theorem record_raise_leaves_buffer lg w pre a post obss o1 o2 e :
  Logger.attrs lg = pre ++ a :: post →
  Logger.observed (Logger.targets w (Logger.target lg)) pre obss o1 →
  observe o1 a = (o2, Raise e) →
  ∃ w', Logger.record lg w = (w', Raise e) ∧
        Logger.buffers w' = Logger.buffers w ∧
        DataFrameBuffer.length (Logger.buffers w' (Logger.buffer lg)) =
          DataFrameBuffer.length (Logger.buffers w (Logger.buffer lg)).
Proof.
  intros Hattrs Hobs Hraise.
  destruct (record_spec lg w) as (w' & _ & _ & _ & Hrec).
  rewrite Hattrs, (observed_then_raise _ _ _ _ _ _ _ _ _ Hobs Hraise) in Hrec.
  destruct Hrec as [Hrec Hbuf]. exists w'. split_and!; [done..|]. by rewrite Hbuf.
Qed.

(** C6: when the calls [observe(a)], for [a] in the configured order,
    return the lists [obss], one call of [record] appends exactly one row
    to the logger's buffer, and the row is the concatenation of [obss]. *)
Theorem record_appends_concatenation lg w obss o' :
  Logger.observed (Logger.targets w (Logger.target lg)) (Logger.attrs lg) obss o' →
  ∃ w', Logger.record lg w = (w', Ok ()) ∧
        Logger.buffers w' (Logger.buffer lg) =
          DataFrameBuffer.append (Logger.buffers w (Logger.buffer lg)) (concat obss) ∧
        DataFrameBuffer.length (Logger.buffers w' (Logger.buffer lg)) =
          DataFrameBuffer.length (Logger.buffers w (Logger.buffer lg)) + 1 ∧
        (∀ l, l ≠ Logger.buffer lg → Logger.buffers w' l = Logger.buffers w l) ∧
        Logger.targets w' (Logger.target lg) = o'.
Proof.
  intros Hobs.
  destruct (record_spec lg w) as (w' & Ho & _ & _ & Hrec).
  rewrite (observed_observe_all _ _ _ _ [] Hobs) in Ho, Hrec.
  simpl in *. destruct Hrec as [Hrec Hbuf]. exists w'.
  assert (Logger.buffers w' (Logger.buffer lg) =
          DataFrameBuffer.append (Logger.buffers w (Logger.buffer lg)) (concat obss)) as Hnew.
  { by rewrite Hbuf, fn_lookup_insert. }
  split_and!; try done.
  - by rewrite Hnew, length_append.
  - intros l Hl. by rewrite Hbuf, fn_lookup_insert_ne.
Qed.




(** [record] writes to no buffer but the logger's own. *)
Lemma record_frame lg w (l : nat) :
  l ≠ Logger.buffer lg →
  Logger.buffers (Logger.record lg w).1 l = Logger.buffers w l.
Proof.
  intros Hl. destruct (record_spec lg w) as (w' & _ & _ & _ & Hrec).
  destruct (Logger.observe_all _ _ _).2; destruct Hrec as [-> Hbuf]; simpl; rewrite Hbuf.
  - by rewrite fn_lookup_insert_ne.
  - done.
Qed.

(** Two loggers on one target with the same attributes, recording one
    after the other: buffers that agreed before agree after. *)
Lemma two_records_agree lg1 lg2 w :
  Logger.pure_read →
  Logger.target lg1 = Logger.target lg2 →
  Logger.attrs lg1 = Logger.attrs lg2 →
  Logger.buffer lg1 ≠ Logger.buffer lg2 →
  Logger.buffers w (Logger.buffer lg1) = Logger.buffers w (Logger.buffer lg2) →
  let w' := ((_ ← Logger.record lg1; Logger.record lg2) w).1 in
  Logger.buffers w' (Logger.buffer lg1) = Logger.buffers w' (Logger.buffer lg2).
Proof.
  intros Hpure Htarget Hattrs Hne Hagree.
  destruct (record_spec lg1 w) as (w1 & Ho1 & _ & _ & Hrec1).
  destruct (record_spec lg2 w1) as (w2 & _ & _ & _ & Hrec2).
  rewrite pure_read_observe_all in Ho1 by done.
  rewrite <- Htarget, <- Hattrs, Ho1 in Hrec2.
  unfold mbind, Logger.M_bind.
  destruct (Logger.observe_all _ _ _).2 as [row|e].
  - destruct Hrec1 as [-> Hbuf1]. destruct Hrec2 as [-> Hbuf2]. simpl.
    rewrite Hbuf2, fn_lookup_insert, fn_lookup_insert_ne by done.
    rewrite Hbuf1, fn_lookup_insert, fn_lookup_insert_ne by done.
    by rewrite Hagree.
  - destruct Hrec1 as [-> Hbuf1]. simpl. by rewrite Hbuf1.
Qed.

Lemma tick_agree lg1 lg2 tk w :
  Logger.pure_read →
  Logger.target lg1 = Logger.target lg2 →
  Logger.attrs lg1 = Logger.attrs lg2 →
  Logger.buffer lg1 ≠ Logger.buffer lg2 →
  Logger.buffers w (Logger.buffer lg1) = Logger.buffers w (Logger.buffer lg2) →
  let w' := (Logger.tick lg1 lg2 tk w).1 in
  Logger.buffers w' (Logger.buffer lg1) = Logger.buffers w' (Logger.buffer lg2).
Proof.
  intros Hpure Htarget Hattrs Hne Hagree. unfold Logger.tick.
  unfold mbind at 1. unfold Logger.M_bind at 1. unfold Logger.update_target.
  destruct tk.2.
  - symmetry. apply (two_records_agree lg2 lg1); done.
  - apply (two_records_agree lg1 lg2); done.
Qed.

Lemma run_agree lg1 lg2 ticks w :
  Logger.pure_read →
  Logger.target lg1 = Logger.target lg2 →
  Logger.attrs lg1 = Logger.attrs lg2 →
  Logger.buffer lg1 ≠ Logger.buffer lg2 →
  Logger.buffers w (Logger.buffer lg1) = Logger.buffers w (Logger.buffer lg2) →
  let w' := (Logger.run lg1 lg2 ticks w).1 in
  Logger.buffers w' (Logger.buffer lg1) = Logger.buffers w' (Logger.buffer lg2).
Proof.
  intros Hpure Htarget Hattrs Hne. unfold Logger.run. revert w.
  induction ticks as [|tk ticks IH]; intros w Hagree; simpl; [done|].
  pose proof (tick_agree lg1 lg2 tk w Hpure Htarget Hattrs Hne Hagree) as Htick.
  unfold mbind, Logger.M_bind.
  destruct (Logger.tick lg1 lg2 tk w) as [w1 [[]|e]]; simpl in *; [|done].
  by apply IH.
Qed.

(** C8: when [observe] is a read, two loggers built on one target with one
    attribute list get buffers of their own, and after any run of ticks in
    which both record (in either order, the simulation updating the target
    between ticks) the two buffers are equal: same row count, same
    columns.  Recording with one logger leaves the other's buffer as it
    was. *)
Theorem two_loggers_agree (l : nat) attrs w ticks :
  Logger.pure_read →
  ∃ lg1 lg2 w1 w2,
    Logger.__init__ l attrs w = (w1, Ok lg1) ∧
    Logger.__init__ l attrs w1 = (w2, Ok lg2) ∧
    Logger.buffer lg1 ≠ Logger.buffer lg2 ∧
    (let w3 := (Logger.run lg1 lg2 ticks w2).1 in
     Logger.buffers w3 (Logger.buffer lg1) = Logger.buffers w3 (Logger.buffer lg2)) ∧
    (∀ w', Logger.buffers (Logger.record lg1 w').1 (Logger.buffer lg2) =
           Logger.buffers w' (Logger.buffer lg2)) ∧
    (∀ w', Logger.buffers (Logger.record lg2 w').1 (Logger.buffer lg1) =
           Logger.buffers w' (Logger.buffer lg1)).
Proof.
  intros Hpure. eexists _, _, _, _.
  split; [reflexivity|]. split; [reflexivity|].
  assert (Logger.next w ≠ S (Logger.next w)) as Hne by lia.
  cbn [Logger.buffer Logger.next]. split; [done|]. split_and!.
  - apply run_agree; cbn; try done.
    rewrite fn_lookup_insert, fn_lookup_insert_ne, fn_lookup_insert by done. done.
  - intros w'. apply record_frame. cbn. lia.
  - intros w'. apply record_frame. cbn. lia.
Qed.

(** [to_df] leaves the store as it is and calling it twice gives what
    calling it once gives, in every state; it returns a table (and a later
    [record] does what it would have done without it) in every state whose
    buffer was filled by rows with pairwise distinct names. *)
Theorem to_df_reads_only lg w :
  (Logger.to_df lg w).1 = w ∧
  (_ ← Logger.to_df lg; Logger.to_df lg) w = Logger.to_df lg w ∧
  (∀ rows,
     Forall DataFrameBuffer.distinct_names rows →
     Logger.buffers w (Logger.buffer lg) =
       DataFrameBuffer.appends DataFrameBuffer.__init__ rows →
     ∃ df, Logger.to_df lg w = (w, Ok df) ∧
           (_ ← Logger.to_df lg; Logger.record lg) w = Logger.record lg w).
Proof.
  split; [done|]. split.
  - unfold mbind, Logger.M_bind, Logger.to_df, Logger.buffer_to_df.
    by destruct (DataFrameBuffer.to_df _).
  - intros rows Hrows Hbuf.
    destruct (to_df_total (Logger.buffers w (Logger.buffer lg))) as [df Hdf].
    { rewrite Hbuf. apply aligned_appends; [apply aligned_init|done]. }
    exists df. unfold mbind, Logger.M_bind, Logger.to_df, Logger.buffer_to_df.
    by rewrite Hdf.
Qed.

Lemma record_no_attrs lg w :
  Logger.attrs lg = [] →
  Logger.record lg w =
    ({| Logger.targets := Logger.targets w;
        Logger.buffers :=
          <[Logger.buffer lg :=
              DataFrameBuffer.append (Logger.buffers w (Logger.buffer lg)) []]>
            (Logger.buffers w);
        Logger.next := Logger.next w |}, Ok ()).
Proof. intros Hattrs. unfold Logger.record. by rewrite Hattrs. Qed.

Lemma records_no_attrs lg w n :
  Logger.attrs lg = [] →
  DataFrameBuffer.buf (Logger.buffers w (Logger.buffer lg)) = ∅ →
  ∃ w', Logger.records lg n w = (w', Ok ()) ∧
        DataFrameBuffer.length (Logger.buffers w' (Logger.buffer lg)) =
          DataFrameBuffer.length (Logger.buffers w (Logger.buffer lg)) + n ∧
        DataFrameBuffer.buf (Logger.buffers w' (Logger.buffer lg)) = ∅.
Proof.
  intros Hattrs. unfold Logger.records. revert w.
  induction n as [|n IH]; intros w Hempty; simpl.
  - exists w. split_and!; [done| lia |done].
  - unfold mbind, Logger.M_bind. rewrite record_no_attrs by done.
    match goal with |- context [Logger.for_each _ _ _ ?w1] =>
      destruct (IH w1) as (w' & Hrun & Hlen & Hbuf)
    end.
    { cbn. by rewrite fn_lookup_insert, buf_append_nil, Hempty, fmap_empty. }
    exists w'. split; [done|]. split; [|done].
    rewrite Hlen. cbn. rewrite fn_lookup_insert, length_append. lia.
Qed.

(** Appending the empty row adds one to the row count and creates no
    column; a column that had as many cells as there were rows gets
    exactly one null; so a logger built with no attributes has, after [n]
    calls of [record], a buffer of row count [n] and no column. *)
Theorem append_empty_row :
  (∀ b : DataFrameBuffer.t A,
     let b' := DataFrameBuffer.append b [] in
     DataFrameBuffer.length b' = DataFrameBuffer.length b + 1 ∧
     dom (DataFrameBuffer.buf b') = dom (DataFrameBuffer.buf b) ∧
     ∀ k col, DataFrameBuffer.buf b !! k = Some col →
       DataFrameBuffer.buf b' !! k =
         Some (col ++ replicate (DataFrameBuffer.length b + 1 - List.length col) None) ∧
       (List.length col = DataFrameBuffer.length b →
        DataFrameBuffer.buf b' !! k = Some (col ++ [None]))) ∧
  (∀ (l : nat) w n,
     ∃ lg w1 w2,
       Logger.__init__ l [] w = (w1, Ok lg) ∧
       Logger.records lg n w1 = (w2, Ok ()) ∧
       DataFrameBuffer.length (Logger.buffers w2 (Logger.buffer lg)) = n ∧
       DataFrameBuffer.buf (Logger.buffers w2 (Logger.buffer lg)) = ∅).
Proof.
  split.
  - intros b b'. split; [apply length_append|]. split.
    + subst b'. by rewrite buf_append_nil, dom_fmap_L.
    + intros k col Hk. subst b'.
      rewrite buf_append_nil, lookup_fmap, Hk. simpl. rewrite pad_column_eq.
      split; [done|]. intros ->.
      by replace (_ - _) with 1 by lia.
  - intros l w n.
    set (lg := {| Logger.target := l; Logger.target_name := name (Logger.targets w l);
                  Logger.attrs := []; Logger.buffer := Logger.next w |}).
    set (w1 := {| Logger.targets := Logger.targets w;
                  Logger.buffers := <[Logger.next w := DataFrameBuffer.__init__]> (Logger.buffers w);
                  Logger.next := S (Logger.next w) |}).
    assert (Logger.buffers w1 (Logger.buffer lg) = DataFrameBuffer.__init__) as Hfresh.
    { cbn. by rewrite fn_lookup_insert. }
    destruct (records_no_attrs lg w1 n eq_refl) as (w2 & Hrun & Hlen & Hbuf).
    { by rewrite Hfresh. }
    exists lg, w1, w2. split; [reflexivity|]. split; [exact Hrun|]. split; [|exact Hbuf].
    by rewrite Hlen, Hfresh.
Qed.

End logger_facts.

(** ** The work of [append] *)

Section cost_facts.
Context {A : Type}.
Implicit Types (b : DataFrameBuffer.t A) (row : list (string * option A)).
Implicit Types (rows : list (list (string * option A))) (k : string).
Implicit Types (v col : list (option A)) (K D : gset string).

Lemma pad_column_cost_eq n v :
  DataFrameBuffer.pad_column_cost n v = n - List.length v.
Proof.
  funelim (DataFrameBuffer.pad_column_cost n v).
  - rewrite H, length_app. simpl. lia.
  - lia.
Qed.

Lemma dom_foldl_append_obs b row :
  dom (DataFrameBuffer.buf (foldl DataFrameBuffer.append_obs b row)) =
  dom (DataFrameBuffer.buf b) ∪ list_to_set row.*1.
Proof.
  revert b. induction row as [|[k x] row IH]; intros b; simpl.
  - set_solver.
  - rewrite IH. simpl. rewrite dom_insert_L. set_solver.
Qed.

(** The loop over the row: one cell per observation, and the backfill,
    of as many cells as there are rows, for each name that is new. *)
Lemma row_cost_eq b row :
  DataFrameBuffer.row_cost b row =
  List.length row + DataFrameBuffer.length b * DataFrameBuffer.introduced b row.
Proof.
  revert b. induction row as [|[k x] row IH]; intros b.
  - unfold DataFrameBuffer.introduced. simpl.
    replace (∅ ∖ _) with (∅ : gset string) by set_solver.
    rewrite size_empty. lia.
  - cbn [DataFrameBuffer.row_cost]. rewrite IH.
    unfold DataFrameBuffer.introduced, DataFrameBuffer.append_obs_cost.
    cbn [DataFrameBuffer.length DataFrameBuffer.buf DataFrameBuffer.append_obs
         fst snd fmap list_fmap list_to_set foldr List.length].
    rewrite dom_insert_L.
    set (K := list_to_set row.*1 : gset string).
    set (D := dom (DataFrameBuffer.buf b)).
    destruct (DataFrameBuffer.buf b !! k) as [col|] eqn:Hk.
    + assert (k ∈ D) by (apply elem_of_dom; eauto).
      replace (({[k]} ∪ K) ∖ D) with (K ∖ ({[k]} ∪ D)) by set_solver. lia.
    + assert (k ∉ D) by (by apply not_elem_of_dom).
      replace (({[k]} ∪ K) ∖ D) with ({[k]} ∪ K ∖ ({[k]} ∪ D)).
      2:{ apply set_eq. intros k'. destruct (decide (k' = k)); set_solver. }
      rewrite (size_union (C := gset string) {[k]}) by set_solver. rewrite size_singleton. lia.
Qed.

(** A sum over the columns of a map in which a column named in [K] counts
    for one and any other for two. *)
Lemma sum_columns_by_name (f : string * list (option A) → nat)
    (m : gmap string (list (option A))) K :
  (∀ k v, m !! k = Some v → f (k, v) = if decide (k ∈ K) then 1 else 2) →
  sum_list_with f (map_to_list m) = size (dom m) + size (dom m ∖ K).
Proof.
  induction m as [|k v m Hk IH] using map_ind; intros Hf.
  - rewrite map_to_list_empty, dom_empty_L. simpl.
    replace (∅ ∖ K) with (∅ : gset string) by set_solver.
    by rewrite size_empty.
  - rewrite map_to_list_insert by done. simpl. rewrite IH.
    2:{ intros k' v' Hk'. apply Hf. rewrite lookup_insert_ne; [done|].
        intros <-. congruence. }
    rewrite (Hf k v) by apply lookup_insert_eq.
    rewrite dom_insert_L.
    assert (k ∉ dom m) by (by apply not_elem_of_dom).
    rewrite (size_union (C := gset string) {[k]} (dom m)) by set_solver. rewrite size_singleton.
    case_decide.
    + replace (({[k]} ∪ dom m) ∖ K) with (dom m ∖ K) by set_solver. lia.
    + replace (({[k]} ∪ dom m) ∖ K) with ({[k]} ∪ dom m ∖ K) by set_solver.
      rewrite (size_union (C := gset string) {[k]}) by set_solver. rewrite size_singleton. lia.
Qed.

(** [_pad] after the loop: every column is visited, the ones the row did
    not name get one null. *)
Lemma pad_cost_eq b row :
  DataFrameBuffer.aligned b → DataFrameBuffer.distinct_names row →
  DataFrameBuffer._pad_cost
    {| DataFrameBuffer.length := DataFrameBuffer.length b + 1;
       DataFrameBuffer.buf := DataFrameBuffer.buf (foldl DataFrameBuffer.append_obs b row) |} =
  List.length row + 2 * DataFrameBuffer.missing b row.
Proof.
  intros Hb Hrow. unfold DataFrameBuffer._pad_cost. simpl.
  rewrite (sum_columns_by_name _ _ (list_to_set row.*1)).
  - rewrite dom_foldl_append_obs. unfold DataFrameBuffer.missing.
    set (K := list_to_set row.*1 : gset string).
    set (D := dom (DataFrameBuffer.buf b)).
    replace ((D ∪ K) ∖ K) with (D ∖ K) by set_solver.
    replace (D ∪ K) with (K ∪ D ∖ K).
    2:{ apply set_eq. intros k. destruct (decide (k ∈ K)); set_solver. }
    rewrite (size_union (C := gset string) K) by set_solver.
    subst K. rewrite size_list_to_set by done. rewrite length_fmap. lia.
  - intros k v. rewrite lookup_foldl_append_obs, pad_column_cost_eq. simpl.
    destruct (decide (k ∈ row.*1)) as [Hin|Hin].
    + intros [= <-]. rewrite decide_True by (by apply elem_of_list_to_set).
      rewrite length_app, (values_of_distinct k row) by done.
      destruct (DataFrameBuffer.buf b !! k) as [col|] eqn:Hk; simpl.
      * rewrite (Hb k col Hk). lia.
      * unfold DataFrameBuffer.new. rewrite length_replicate. lia.
    + intros Hk. rewrite decide_False by (by rewrite elem_of_list_to_set).
      rewrite (Hb k v Hk). lia.
Qed.

Lemma append_cost_eq b row :
  DataFrameBuffer.aligned b → DataFrameBuffer.distinct_names row →
  DataFrameBuffer.append_cost b row =
    2 * List.length row + 2 * DataFrameBuffer.missing b row +
    DataFrameBuffer.length b * DataFrameBuffer.introduced b row.
Proof.
  intros Hb Hrow. unfold DataFrameBuffer.append_cost.
  rewrite row_cost_eq, length_foldl_append_obs, pad_cost_eq by done. lia.
Qed.

(** C9, as amended: on a buffer whose columns are aligned, a row with
    pairwise distinct names costs two units per observation, two units
    per column it does not name and, for every column it introduces, as
    many units as rows were appended before (the backfill); so the work
    does not depend on the history when the row introduces no column. *)
Theorem append_cost_exact b row :
  DataFrameBuffer.aligned b → DataFrameBuffer.distinct_names row →
  DataFrameBuffer.append_cost b row =
    2 * List.length row + 2 * DataFrameBuffer.missing b row +
    DataFrameBuffer.length b * DataFrameBuffer.introduced b row ∧
  (DataFrameBuffer.introduced b row = 0 →
   DataFrameBuffer.append_cost b row =
     2 * (List.length row + DataFrameBuffer.missing b row)).
Proof.
  intros Hb Hrow.
  assert (DataFrameBuffer.row_cost b row + (List.length row + 2 * DataFrameBuffer.missing b row) =
          2 * List.length row + 2 * DataFrameBuffer.missing b row +
          DataFrameBuffer.length b * DataFrameBuffer.introduced b row) as Hsum.
  { rewrite row_cost_eq. lia. }
  unfold DataFrameBuffer.append_cost.
  rewrite length_foldl_append_obs, pad_cost_eq by done.
  split; [exact Hsum|].
  intros Hnone. rewrite Hsum, Hnone. lia.
Qed.

Lemma missing_no_columns b row :
  DataFrameBuffer.buf b = ∅ → DataFrameBuffer.missing b row = 0.
Proof.
  intros Hb. unfold DataFrameBuffer.missing. rewrite Hb, dom_empty_L.
  replace (∅ ∖ _) with (∅ : gset string) by set_solver.
  apply size_empty.
Qed.

Lemma introduced_no_columns b row :
  DataFrameBuffer.buf b = ∅ → DataFrameBuffer.distinct_names row →
  DataFrameBuffer.introduced b row = List.length row.
Proof.
  intros Hb Hrow. unfold DataFrameBuffer.introduced. rewrite Hb, dom_empty_L.
  replace (_ ∖ ∅) with (list_to_set row.*1 : gset string) by set_solver.
  rewrite size_list_to_set by done. apply length_fmap.
Qed.

Lemma appends_cost_app b rows1 rows2 :
  DataFrameBuffer.appends_cost b (rows1 ++ rows2) =
  DataFrameBuffer.appends_cost b rows1 +
  DataFrameBuffer.appends_cost (DataFrameBuffer.appends b rows1) rows2.
Proof.
  revert b. induction rows1 as [|row rows1 IH]; intros b; simpl; [done|].
  rewrite IH. unfold DataFrameBuffer.appends. simpl. lia.
Qed.

Lemma appends_budget_app b rows1 rows2 :
  DataFrameBuffer.appends_budget b (rows1 ++ rows2) =
  DataFrameBuffer.appends_budget b rows1 +
  DataFrameBuffer.appends_budget (DataFrameBuffer.appends b rows1) rows2.
Proof.
  revert b. induction rows1 as [|row rows1 IH]; intros b; simpl; [done|].
  rewrite IH. unfold DataFrameBuffer.appends. simpl. lia.
Qed.

(** Empty rows on a buffer without columns: the row count grows, nothing
    is written. *)
Lemma appends_empty_rows b n :
  DataFrameBuffer.buf b = ∅ →
  DataFrameBuffer.buf (DataFrameBuffer.appends b (replicate n [])) = ∅ ∧
  DataFrameBuffer.length (DataFrameBuffer.appends b (replicate n [])) =
    DataFrameBuffer.length b + n ∧
  DataFrameBuffer.appends_cost b (replicate n []) = 0 ∧
  DataFrameBuffer.appends_budget b (replicate n []) = n.
Proof.
  revert b. induction n as [|n IH]; intros b Hb; cbn [replicate].
  - unfold DataFrameBuffer.appends. simpl. split_and!; [done|lia|done|done].
  - assert (DataFrameBuffer.buf (DataFrameBuffer.append b []) = ∅) as Hb'.
    { by rewrite buf_append_nil, Hb, fmap_empty. }
    destruct (IH _ Hb') as (Hbuf & Hlen & Hcost & Hbudget).
    unfold DataFrameBuffer.appends in *. cbn [foldl].
    cbn [DataFrameBuffer.appends_cost DataFrameBuffer.appends_budget].
    rewrite Hcost, Hbudget, Hlen, length_append. split_and!; [done|lia| |].
    + unfold DataFrameBuffer.append_cost, DataFrameBuffer._pad_cost. simpl.
      by rewrite Hb, map_to_list_empty.
    + rewrite missing_no_columns by done. simpl. lia.
Qed.

End cost_facts.

(** ** Concrete runs of the statements above *)

Section runs.
Import ObservableMixin Sample.

Ltac distinct :=
  unfold DataFrameBuffer.distinct_names; simpl; repeat constructor; set_solver.

Lemma append_keeps_columns_aligned_run :
  let rows := [[("a", Some 1%Z)]; [("b", Some 2%Z); ("a", None)]; []] in
  Forall DataFrameBuffer.distinct_names rows ∧
  2 ≤ List.length rows ∧
  let b := DataFrameBuffer.appends DataFrameBuffer.__init__ (take 2 rows) in
  DataFrameBuffer.length b = 2 ∧
  ∀ k col, DataFrameBuffer.buf b !! k = Some col →
           List.length col = DataFrameBuffer.length b.
Proof.
  intros rows.
  assert (Forall DataFrameBuffer.distinct_names rows) as Hrows by (subst rows; distinct).
  assert (2 ≤ List.length rows) as Hlen by (simpl; lia).
  split; [exact Hrows|]. split; [exact Hlen|].
  exact (append_keeps_columns_aligned rows 2 Hrows Hlen).
Defined.


Lemma to_df_row_count_run :
  let rows := [[("a", Some 1%Z)]; [("b", Some 2%Z); ("a", None)]; []] in
  let b := DataFrameBuffer.appends DataFrameBuffer.__init__ rows in
  Forall DataFrameBuffer.distinct_names rows ∧
  DataFrameBuffer.buf b ≠ ∅ ∧
  DataFrameBuffer.to_df b =
    Ok {| pandas.columns := pandas.infer <$> DataFrameBuffer.buf b; pandas.nrows := 3 |}.
Proof.
  intros rows b.
  assert (Forall DataFrameBuffer.distinct_names rows) as Hrows by (subst rows; distinct).
  assert (DataFrameBuffer.buf b ≠ ∅) as Hne.
  { intros He. assert (DataFrameBuffer.buf b !! "a" = None) as Ha by (by rewrite He).
    by vm_compute in Ha. }
  split; [exact Hrows|]. split; [exact Hne|].
  exact (proj1 (to_df_row_count rows Hrows) Hne).
Defined.

(** A logger on the sample layer whose second attribute is not loggable. *)
Lemma record_raise_leaves_buffer_run :
  let lg := {| Logger.target := 0; Logger.target_name := "in";
               Logger.attrs := ["unit_act"; "bogus"; "avg_act"]; Logger.buffer := 0 |} in
  let o := Logger.targets Sample.w0 0 in
  Logger.observed o ["unit_act"] [[("unit0_act", Some 0%Z); ("unit1_act", Some 4%Z)]] o ∧
  observe o "bogus" = (o, Raise (ValueError "bogus")) ∧
  ∃ w', Logger.record lg Sample.w0 = (w', Raise (ValueError "bogus")) ∧
        Logger.buffers w' = Logger.buffers Sample.w0 ∧
        DataFrameBuffer.length (Logger.buffers w' 0) =
          DataFrameBuffer.length (Logger.buffers Sample.w0 0).
Proof.
  intros lg o.
  assert (Logger.observed o ["unit_act"]
            [[("unit0_act", Some 0%Z); ("unit1_act", Some 4%Z)]] o) as Hobs.
  { eapply Logger.observed_cons; [reflexivity|apply Logger.observed_nil]. }
  assert (observe o "bogus" = (o, Raise (ValueError "bogus"))) as Hraise by reflexivity.
  split; [exact Hobs|]. split; [exact Hraise|].
  exact (record_raise_leaves_buffer lg Sample.w0 ["unit_act"] "bogus" ["avg_act"]
           _ o o _ eq_refl Hobs Hraise).
Defined.

Lemma record_appends_concatenation_run :
  let lg := {| Logger.target := 0; Logger.target_name := "in";
               Logger.attrs := ["avg_act"; "unit_act"]; Logger.buffer := 0 |} in
  let o := Logger.targets Sample.w0 0 in
  let obss := [[("avg_act", Some 2%Z)];
               [("unit0_act", Some 0%Z); ("unit1_act", Some 4%Z)]] in
  Logger.observed o (Logger.attrs lg) obss o ∧
  ∃ w', Logger.record lg Sample.w0 = (w', Ok ()) ∧
        Logger.buffers w' (Logger.buffer lg) =
          DataFrameBuffer.append (Logger.buffers Sample.w0 (Logger.buffer lg)) (concat obss) ∧
        DataFrameBuffer.length (Logger.buffers w' (Logger.buffer lg)) =
          DataFrameBuffer.length (Logger.buffers Sample.w0 (Logger.buffer lg)) + 1 ∧
        (∀ l, l ≠ Logger.buffer lg → Logger.buffers w' l = Logger.buffers Sample.w0 l) ∧
        Logger.targets w' (Logger.target lg) = o.
Proof.
  intros lg o obss.
  assert (Logger.observed o (Logger.attrs lg) obss o) as Hobs.
  { eapply Logger.observed_cons; [reflexivity|].
    eapply Logger.observed_cons; [reflexivity|apply Logger.observed_nil]. }
  split; [exact Hobs|].
  exact (record_appends_concatenation lg Sample.w0 obss o Hobs).
Defined.

Lemma sample_pure_read : Logger.pure_read (A := Z) (T := Sample.layer).
Proof.
  intros o a. unfold observe, Sample.layer_observe. by repeat case_decide.
Qed.

Lemma two_loggers_agree_run :
  let warm (o : obj Sample.layer) :=
    {| name := name o; fields := {| Sample.unit0_act := 1; Sample.unit1_act := 3 |} |} in
  Logger.pure_read (A := Z) (T := Sample.layer) ∧
  ∃ lg1 lg2 w1 w2,
    Logger.__init__ 0 ["unit_act"; "avg_act"] Sample.w0 = (w1, Ok lg1) ∧
    Logger.__init__ 0 ["unit_act"; "avg_act"] w1 = (w2, Ok lg2) ∧
    Logger.buffer lg1 ≠ Logger.buffer lg2 ∧
    (let w3 := (Logger.run lg1 lg2 [(id, false); (warm, true)] w2).1 in
     Logger.buffers w3 (Logger.buffer lg1) = Logger.buffers w3 (Logger.buffer lg2)) ∧
    (∀ w', Logger.buffers (Logger.record lg1 w').1 (Logger.buffer lg2) =
           Logger.buffers w' (Logger.buffer lg2)) ∧
    (∀ w', Logger.buffers (Logger.record lg2 w').1 (Logger.buffer lg1) =
           Logger.buffers w' (Logger.buffer lg1)).
Proof.
  intros warm. split; [exact sample_pure_read|].
  exact (two_loggers_agree 0 ["unit_act"; "avg_act"] Sample.w0
           [(id, false); (warm, true)] sample_pure_read).
Defined.

Lemma to_df_reads_only_run :
  let rows := [[("avg_act", Some 2%Z)]; [("avg_act", Some 3%Z)]] in
  let lg := {| Logger.target := 0; Logger.target_name := "in";
               Logger.attrs := ["avg_act"]; Logger.buffer := 0 |} in
  let w := {| Logger.targets := Logger.targets w0;
              Logger.buffers := λ _, DataFrameBuffer.appends DataFrameBuffer.__init__ rows;
              Logger.next := 1 |} in
  Forall DataFrameBuffer.distinct_names rows ∧
  ∃ df, Logger.to_df lg w = (w, Ok df) ∧
        (_ ← Logger.to_df lg; Logger.record lg) w = Logger.record lg w.
Proof.
  intros rows lg w.
  assert (Forall DataFrameBuffer.distinct_names rows) as Hrows by (subst rows; distinct).
  split; [exact Hrows|].
  exact (proj2 (proj2 (to_df_reads_only lg w)) rows Hrows eq_refl).
Defined.

Lemma append_empty_row_run :
  let b := DataFrameBuffer.append DataFrameBuffer.__init__ [("a", Some 1%Z)] in
  DataFrameBuffer.buf b !! "a" = Some [Some 1%Z] ∧
  List.length [Some 1%Z] = DataFrameBuffer.length b ∧
  DataFrameBuffer.buf (DataFrameBuffer.append b []) !! "a" = Some [Some 1%Z; None].
Proof.
  intros b.
  assert (DataFrameBuffer.buf b !! "a" = Some [Some 1%Z]) as Hk by (by vm_compute).
  assert (List.length [Some 1%Z] = DataFrameBuffer.length b) as Hlen by (by vm_compute).
  split; [exact Hk|]. split; [exact Hlen|].
  exact (proj2 (proj2 (proj2 (proj1 (append_empty_row (T := layer)) b)) "a" [Some 1%Z] Hk) Hlen).
Defined.

Lemma append_cost_exact_run :
  let b := DataFrameBuffer.appends DataFrameBuffer.__init__
             [[("a", Some 1%Z)]; [("a", Some 2%Z)]] in
  let row := [("b", Some 3%Z)] in
  DataFrameBuffer.aligned b ∧
  DataFrameBuffer.distinct_names row ∧
  DataFrameBuffer.append_cost b row =
    2 * List.length row + 2 * DataFrameBuffer.missing b row +
    DataFrameBuffer.length b * DataFrameBuffer.introduced b row ∧
  (DataFrameBuffer.introduced b row = 0 →
   DataFrameBuffer.append_cost b row =
     2 * (List.length row + DataFrameBuffer.missing b row)).
Proof.
  intros b row.
  assert (DataFrameBuffer.aligned b) as Hb.
  { apply aligned_appends; [apply aligned_init|distinct]. }
  assert (DataFrameBuffer.distinct_names row) as Hrow by (subst row; distinct).
  split; [exact Hb|]. split; [exact Hrow|].
  exact (append_cost_exact b row Hb Hrow).
Defined.

Lemma fresh_name_inj i j : fresh_name i = fresh_name j → i = j.
Proof.
  revert j. induction i as [|i IH]; intros [|j]; simpl; try done.
  intros [= Heq]. f_equal. by apply IH.
Qed.

Lemma wide_row_distinct n : DataFrameBuffer.distinct_names (wide_row n).
Proof.
  unfold DataFrameBuffer.distinct_names, wide_row.
  rewrite <- list_fmap_compose. apply NoDup_fmap_2; [|apply NoDup_seq].
  intros i j. apply fresh_name_inj.
Qed.

(** C9 fails: no constant per observation, per missing column and per call
    pays for the calls.  After [n] empty rows, a row of [n] new names
    costs [n] cells of backfill for each of them. *)
Lemma append_cost_exceeds_every_budget :
  ¬ ∃ c, ∀ rows : list (list (string * option Z)),
      Forall DataFrameBuffer.distinct_names rows →
      DataFrameBuffer.appends_cost DataFrameBuffer.__init__ rows ≤
        c * DataFrameBuffer.appends_budget DataFrameBuffer.__init__ rows.
Proof.
  intros [c Hc]. set (n := 2 * c + 2).
  specialize (Hc (replicate n [] ++ [wide_row n])).
  destruct (appends_empty_rows (A := Z) DataFrameBuffer.__init__ n eq_refl)
    as (Hbuf & Hlen & Hcost & Hbudget).
  rewrite appends_cost_app, appends_budget_app, Hcost, Hbudget in Hc.
  cbn [DataFrameBuffer.appends_cost DataFrameBuffer.appends_budget] in Hc.
  rewrite append_cost_eq in Hc.
  2:{ intros k v. rewrite Hbuf. by rewrite lookup_empty. }
  2:{ apply wide_row_distinct. }
  rewrite missing_no_columns, introduced_no_columns, Hlen in Hc
    by (done || apply wide_row_distinct).
  assert (List.length (wide_row n) = n) as Hn.
  { unfold wide_row. by rewrite length_fmap, length_seq. }
  rewrite Hn in Hc. simpl in Hc.
  assert (Forall DataFrameBuffer.distinct_names (replicate n [] ++ [wide_row n])) as Hrows.
  { apply Forall_app. split.
    - apply Forall_replicate. apply NoDup_nil_2.
    - apply Forall_singleton, wide_row_distinct. }
  specialize (Hc Hrows). subst n. nia.
Qed.

(** A session on the sample layer: the first logger records before and
    after the layer is renamed and keeps the name [in]; a logger built
    after the renaming has the new name. *)
Example session_run :
  let evs := [Session.Record 0; Session.Assign 0 (set_name "hidden"); Session.Record 0;
              Session.New 0 ["unit_act"]; Session.ToDf 0; Session.Record 1;
              Session.Assign 0 (set_name "out")] in
  let s0 := {| Session.store := w0; Session.loggers := [] |} in
  let s := Session.exec (Session.step s0 (Session.New 0 ["avg_act"])) evs in
  Logger.target_name <$> Session.loggers s = ["in"; "hidden"] ∧
  name (Logger.targets (Session.store s) 0) = "out" ∧
  DataFrameBuffer.length (Logger.buffers (Session.store s) 0) = 2 ∧
  DataFrameBuffer.length (Logger.buffers (Session.store s) 1) = 1.
Proof. by vm_compute. Qed.

End runs.

(** * Further properties of the buffer *)

Section buffer_more.
Context {A : Type}.
Implicit Types (b : DataFrameBuffer.t A) (row : list (string * option A)).
Implicit Types (rows : list (list (string * option A))) (k : string).
Implicit Types (v col : list (option A)).

Lemma appends_snoc b rows row :
  DataFrameBuffer.appends b (rows ++ [row]) =
  DataFrameBuffer.append (DataFrameBuffer.appends b rows) row.
Proof. unfold DataFrameBuffer.appends. by rewrite foldl_app. Qed.

(** What [append] does to a column the buffer has. *)
Lemma lookup_append_Some b row k col :
  DataFrameBuffer.buf b !! k = Some col →
  DataFrameBuffer.buf (DataFrameBuffer.append b row) !! k =
    Some (col ++ DataFrameBuffer.values_of k row ++
          replicate (DataFrameBuffer.length b + 1 -
                     (List.length col + List.length (DataFrameBuffer.values_of k row))) None).
Proof.
  intros Hk. rewrite lookup_append, Hk. case_decide as Hin; simpl.
  - by rewrite pad_column_eq, length_app, <- app_assoc.
  - rewrite values_of_nil by done. simpl.
    by rewrite pad_column_eq, Nat.add_0_r.
Qed.

Lemma length_lookup_append b row k col :
  DataFrameBuffer.buf (DataFrameBuffer.append b row) !! k = Some col →
  DataFrameBuffer.length b + 1 ≤ List.length col.
Proof.
  rewrite lookup_append.
  destruct (if decide (k ∈ row.*1) then _ else _) as [x|]; simpl; [|done].
  intros [= <-]. rewrite length_pad_column. lia.
Qed.

Lemma dom_append b row :
  dom (DataFrameBuffer.buf (DataFrameBuffer.append b row)) =
  dom (DataFrameBuffer.buf b) ∪ list_to_set row.*1.
Proof.
  unfold DataFrameBuffer.append, DataFrameBuffer._pad. simpl.
  by rewrite dom_fmap_L, dom_foldl_append_obs.
Qed.

Lemma cell_not_named k row : k ∉ row.*1 → DataFrameBuffer.cell k row = None.
Proof. intros Hk. unfold DataFrameBuffer.cell. by rewrite values_of_nil. Qed.

Lemma values_of_cell k row :
  DataFrameBuffer.distinct_names row → k ∈ row.*1 →
  DataFrameBuffer.values_of k row = [DataFrameBuffer.cell k row].
Proof.
  intros Hrow Hk. pose proof (values_of_distinct k row Hrow Hk) as Hlen.
  unfold DataFrameBuffer.cell.
  by destruct (DataFrameBuffer.values_of k row) as [|x [|y l]].
Qed.

Lemma cell_replicate_None k rows :
  k ∉ (concat rows).*1 →
  DataFrameBuffer.cell k <$> rows = replicate (List.length rows) None.
Proof.
  induction rows as [|row rows IH]; simpl; [done|].
  rewrite fmap_app, elem_of_app. intros Hk.
  f_equal; [apply cell_not_named|apply IH]; tauto.
Qed.

(** Rows with pairwise distinct names, appended to the empty buffer: the
    column of a name is the list of what each row says about it. *)
Lemma lookup_appends_distinct rows k :
  Forall DataFrameBuffer.distinct_names rows →
  DataFrameBuffer.buf (DataFrameBuffer.appends DataFrameBuffer.__init__ rows) !! k =
  if decide (k ∈ (concat rows).*1)
  then Some (DataFrameBuffer.cell k <$> rows)
  else None.
Proof.
  induction rows as [|row rows IH] using rev_ind; intros Hrows.
  - done.
  - apply list.Forall_app in Hrows as [Hrows Hrow]. apply Forall_inv in Hrow.
    rewrite appends_snoc, lookup_append, IH, length_appends by done.
    rewrite concat_app, !fmap_app. simpl. rewrite app_nil_r.
    unfold DataFrameBuffer.new. rewrite length_appends. simpl.
    destruct (decide (k ∈ row.*1)) as [Hin|Hin]; simpl.
    + rewrite (decide_True (P := k ∈ (concat rows).*1 ++ row.*1))
        by (apply elem_of_app; by right).
      f_equal. rewrite values_of_cell by done.
      assert (default (replicate (List.length rows) None)
                (if decide (k ∈ (concat rows).*1)
                 then Some (DataFrameBuffer.cell k <$> rows) else None) =
              DataFrameBuffer.cell k <$> rows) as ->.
      { case_decide; simpl; [done|]. by rewrite cell_replicate_None. }
      rewrite pad_column_eq, length_app, length_fmap. simpl.
      replace (_ - _) with 0 by lia. simpl. by rewrite app_nil_r.
    + rewrite cell_not_named by done.
      destruct (decide (k ∈ (concat rows).*1)) as [Hin'|Hin']; simpl.
      * rewrite (decide_True (P := k ∈ (concat rows).*1 ++ row.*1))
          by (apply elem_of_app; by left).
        f_equal. rewrite pad_column_eq, length_fmap.
        by replace (_ - _) with 1 by lia.
      * rewrite decide_False; [done|]. rewrite elem_of_app. tauto.
Qed.

(** X1: no cell is ever rewritten or removed: a column the buffer has
    is, after any run of [append] calls with any rows, that column followed
    by more cells. *)
Theorem appends_keep_cells b rows k col :
  DataFrameBuffer.buf b !! k = Some col →
  ∃ more, DataFrameBuffer.buf (DataFrameBuffer.appends b rows) !! k = Some (col ++ more).
Proof.
  unfold DataFrameBuffer.appends. revert b col.
  induction rows as [|row rows IH]; intros b col Hk; simpl.
  - exists []. by rewrite app_nil_r.
  - destruct (IH _ _ (lookup_append_Some b row k col Hk)) as [more Hmore].
    eexists. rewrite Hmore. by rewrite <- !app_assoc.
Qed.

(** X2: the columns after a run of [append] calls are the columns there
    were and one for every name that a row of the run carries; none is
    dropped and none appears that no row named. *)
Theorem appends_columns_are_names b rows :
  dom (DataFrameBuffer.buf (DataFrameBuffer.appends b rows)) =
  dom (DataFrameBuffer.buf b) ∪ list_to_set (concat rows).*1.
Proof.
  unfold DataFrameBuffer.appends. revert b.
  induction rows as [|row rows IH]; intros b; simpl.
  - set_solver.
  - rewrite IH, dom_append, fmap_app, list_to_set_app_L. set_solver.
Qed.

(** X3: whatever the rows (repeated names included), the row count of a
    buffer filled from the empty one is the number of [append] calls, and
    no column has fewer cells than that. *)
Theorem columns_never_shorter rows :
  let b := DataFrameBuffer.appends DataFrameBuffer.__init__ rows in
  DataFrameBuffer.length b = List.length rows ∧
  ∀ k col, DataFrameBuffer.buf b !! k = Some col → List.length rows ≤ List.length col.
Proof.
  intros b. subst b. split; [by rewrite length_appends|].
  intros k col Hk.
  destruct rows as [|row rows _] using rev_ind; [done|].
  rewrite appends_snoc in Hk. apply length_lookup_append in Hk.
  rewrite length_appends in Hk. rewrite length_app. simpl in *. lia.
Qed.

(** X4: what one [append] does to a column the buffer has: the values the
    row carries for its name are added in the order of the row, then nulls
    up to the new row count; in particular a column of full length that
    the row does not name gets exactly one null. *)
Theorem append_existing_column b row k col :
  DataFrameBuffer.buf b !! k = Some col →
  DataFrameBuffer.buf (DataFrameBuffer.append b row) !! k =
    Some (col ++ DataFrameBuffer.values_of k row ++
          replicate (DataFrameBuffer.length b + 1 -
                     (List.length col + List.length (DataFrameBuffer.values_of k row))) None) ∧
  (List.length col = DataFrameBuffer.length b → k ∉ row.*1 →
   DataFrameBuffer.buf (DataFrameBuffer.append b row) !! k = Some (col ++ [None])).
Proof.
  intros Hk. pose proof (lookup_append_Some b row k col Hk) as Hnew.
  split; [done|]. intros Hlen Hnot. rewrite Hnew, values_of_nil by done.
  simpl. by replace (_ - _) with 1 by lia.
Qed.

(** X5: rows with pairwise distinct names, appended to the empty buffer,
    can be read back: the column of a name some row carries has one cell
    per row, and cell [i] is what row [i] says about the name (its value,
    or null when the row does not name it); a name no row carries has no
    column. *)
Theorem appends_is_transpose rows k :
  Forall DataFrameBuffer.distinct_names rows →
  let b := DataFrameBuffer.appends DataFrameBuffer.__init__ rows in
  (k ∈ (concat rows).*1 →
   ∃ col, DataFrameBuffer.buf b !! k = Some col ∧
          List.length col = List.length rows ∧
          ∀ i row, rows !! i = Some row → col !! i = Some (DataFrameBuffer.cell k row)) ∧
  (k ∉ (concat rows).*1 → DataFrameBuffer.buf b !! k = None).
Proof.
  intros Hrows b. subst b. rewrite lookup_appends_distinct by done. split.
  - intros Hk. rewrite decide_True by done. eexists. split; [done|].
    split; [by rewrite length_fmap|].
    intros i row Hi. by rewrite list_lookup_fmap, Hi.
  - intros Hk. by rewrite decide_False.
Qed.

Lemma values_of_Permutation k row row' :
  row ≡ₚ row' → DataFrameBuffer.distinct_names row →
  DataFrameBuffer.values_of k row = DataFrameBuffer.values_of k row'.
Proof.
  intros Hperm Hrow.
  assert (DataFrameBuffer.values_of k row ≡ₚ DataFrameBuffer.values_of k row') as Hvals.
  { unfold DataFrameBuffer.values_of. by rewrite Hperm. }
  destruct (decide (k ∈ row.*1)) as [Hin|Hin].
  - rewrite (values_of_cell k row) in * by done.
    by apply Permutation_singleton_l in Hvals.
  - rewrite (values_of_nil k row) in * by done.
    by apply Permutation_nil_l in Hvals.
Qed.

Lemma buffer_eq (b1 b2 : DataFrameBuffer.t A) :
  DataFrameBuffer.length b1 = DataFrameBuffer.length b2 →
  DataFrameBuffer.buf b1 = DataFrameBuffer.buf b2 → b1 = b2.
Proof. destruct b1, b2. simpl. by intros -> ->. Qed.

(** X6: the order of the observations within a row with pairwise distinct
    names does not matter to the buffer. *)
Theorem append_row_order_irrelevant b row row' :
  row ≡ₚ row' → DataFrameBuffer.distinct_names row →
  DataFrameBuffer.append b row = DataFrameBuffer.append b row'.
Proof.
  intros Hperm Hrow. apply buffer_eq; [by rewrite !length_append|].
  apply map_eq. intros k. rewrite !lookup_append.
  rewrite (values_of_Permutation k row row') by done.
  assert (k ∈ row.*1 ↔ k ∈ row'.*1) as Hiff by (by rewrite Hperm).
  destruct (decide (k ∈ row.*1)), (decide (k ∈ row'.*1)); tauto.
Qed.

(** X7: after [_pad] no column has fewer cells than the row count; padding
    again changes nothing, and a buffer whose columns all have as many
    cells as the row count is left as it is. *)
Theorem pad_idempotent b :
  (∀ k col, DataFrameBuffer.buf (DataFrameBuffer._pad b) !! k = Some col →
            DataFrameBuffer.length b ≤ List.length col) ∧
  DataFrameBuffer._pad (DataFrameBuffer._pad b) = DataFrameBuffer._pad b ∧
  (DataFrameBuffer.aligned b → DataFrameBuffer._pad b = b).
Proof.
  split_and!.
  - intros k col. unfold DataFrameBuffer._pad. simpl. rewrite lookup_fmap.
    destruct (DataFrameBuffer.buf b !! k) as [v|]; simpl; [|done].
    intros [= <-]. rewrite length_pad_column. lia.
  - apply buffer_eq; [done|]. apply map_eq. intros k.
    unfold DataFrameBuffer._pad. simpl. rewrite !lookup_fmap.
    destruct (DataFrameBuffer.buf b !! k) as [v|]; simpl; [|done].
    f_equal. rewrite (pad_column_eq _ (DataFrameBuffer.pad_column _ _)).
    rewrite length_pad_column.
    replace (_ - _) with 0 by lia. simpl. by rewrite app_nil_r.
  - intros Hb. apply buffer_eq; [done|]. apply map_eq. intros k.
    unfold DataFrameBuffer._pad. simpl. rewrite lookup_fmap.
    destruct (DataFrameBuffer.buf b !! k) as [v|] eqn:Hk; simpl; [|done].
    f_equal. rewrite pad_column_eq, (Hb k v Hk), Nat.sub_diag. simpl.
    by rewrite app_nil_r.
Qed.

(** X14: for a column of full length, a row that carries [None] for its
    name and a row that does not name it at all leave the same buffer. *)
Theorem append_None_is_missing b row k col :
  DataFrameBuffer.buf b !! k = Some col →
  List.length col = DataFrameBuffer.length b →
  k ∉ row.*1 →
  DataFrameBuffer.append b ((k, None) :: row) = DataFrameBuffer.append b row.
Proof.
  intros Hk Hlen Hnot. apply buffer_eq; [by rewrite !length_append|].
  apply map_eq. intros k'. rewrite !lookup_append. simpl.
  destruct (decide (k' = k)) as [->|Hne].
  - rewrite decide_True by (apply elem_of_cons; by left).
    rewrite decide_False, Hk, values_of_cons_eq, values_of_nil by done. simpl.
    f_equal. rewrite !pad_column_eq, length_app, Hlen. simpl.
    replace (_ - _) with 0 by lia.
    replace (_ - _) with 1 by lia. simpl. by rewrite app_nil_r.
  - rewrite values_of_cons_ne by done.
    destruct (decide (k' ∈ row.*1)) as [Hin|Hin].
    + by rewrite decide_True by (apply elem_of_cons; by right).
    + rewrite decide_False; [done|].
      intros [?|?]%elem_of_cons; [congruence|done].
Qed.

End buffer_more.

(** * Further properties of materialization *)

Section frame_more.
Context {A : Type} `{!pandas.Inference A}.
Implicit Types (d : gmap string (list (option A))).
Implicit Types (rows : list (list (string * option A))) (k : string).

Lemma forallb_eqb_elem n ns m : forallb (Nat.eqb n) ns = true → m ∈ ns → m = n.
Proof.
  induction ns as [|m' ns IH]; simpl.
  - by intros _ ?%elem_of_nil.
  - intros [Hm' Hns]%andb_prop [->|Hm]%elem_of_cons; [|by apply IH].
    symmetry. by apply Nat.eqb_eq.
Qed.

(** A frame is returned only for columns of one length, which is its
    number of rows. *)
Lemma from_dict_Ok d df :
  pandas.from_dict d = Ok df →
  pandas.columns df = pandas.infer <$> d ∧
  map_Forall (λ _ v, List.length v = pandas.nrows df) d ∧
  (d = ∅ → pandas.nrows df = 0).
Proof.
  unfold pandas.from_dict, pandas.column_lengths.
  destruct (map_to_list d) as [|[k0 v0] l] eqn:Hl; simpl.
  - intros [= <-]. simpl. split; [done|].
    apply map_to_list_empty_iff in Hl as ->. split; [apply map_Forall_empty|done].
  - destruct (forallb _ _) eqn:Hall; [|done]. intros [= <-]. simpl.
    split; [done|]. split.
    + intros k v Hkv. apply elem_of_map_to_list in Hkv.
      rewrite Hl in Hkv. apply elem_of_cons in Hkv as [[= -> ->]|Hkv]; [done|].
      apply (forallb_eqb_elem _ _ _ Hall).
      apply (list_elem_of_fmap_2 (λ kv, List.length kv.2) _ _ Hkv).
    + intros ->. by rewrite map_to_list_empty in Hl.
Qed.

(** X8: whatever rows were appended to the empty buffer, when [to_df]
    returns a table, the table has the names of the buffer's columns,
    every column of the buffer and of the table has as many cells as the
    table has rows, a table with a column has at least as many rows as
    [append] was called, and a table without columns has no rows. *)
Theorem to_df_ok_rows rows df :
  DataFrameBuffer.to_df (DataFrameBuffer.appends DataFrameBuffer.__init__ rows) = Ok df →
  let b := DataFrameBuffer.appends DataFrameBuffer.__init__ rows in
  dom (pandas.columns df) = dom (DataFrameBuffer.buf b) ∧
  (∀ k col, DataFrameBuffer.buf b !! k = Some col → List.length col = pandas.nrows df) ∧
  (∀ k col, pandas.columns df !! k = Some col → List.length col = pandas.nrows df) ∧
  (pandas.columns df ≠ ∅ → List.length rows ≤ pandas.nrows df) ∧
  (pandas.columns df = ∅ → pandas.nrows df = 0).
Proof.
  intros (Hcols & Hall & Hnone)%from_dict_Ok b. fold b in Hcols, Hall, Hnone.
  split_and!.
  - by rewrite Hcols, dom_fmap_L.
  - exact Hall.
  - intros k col. rewrite Hcols, lookup_fmap.
    destruct (DataFrameBuffer.buf b !! k) as [v|] eqn:Hk; simpl; [|done].
    intros [= <-]. rewrite pandas.length_infer. by apply (Hall k v).
  - intros Hne. rewrite Hcols in Hne.
    destruct (map_choose _ Hne) as (k & col & Hk). rewrite lookup_fmap in Hk.
    destruct (DataFrameBuffer.buf b !! k) as [v|] eqn:Hv; simpl in Hk; [|done].
    rewrite <- (Hall k v Hv). subst b.
    destruct rows as [|row rows _] using rev_ind; [simpl; lia|].
    rewrite appends_snoc in Hv. apply length_lookup_append in Hv.
    rewrite length_appends in Hv. rewrite length_app. simpl in *. lia.
  - intros Hempty. apply Hnone. rewrite Hcols in Hempty.
    by apply fmap_empty_inv in Hempty.
Qed.

End frame_more.

(** * Further properties of the logger *)

Section logger_more.
Import ObservableMixin.
Context {A T : Type} `{!Observable A T} `{!pandas.Inference A}.
Implicit Types (w : Logger.world A T) (lg : Logger.t) (o : obj T).
Implicit Types (row obs : list (string * option A)) (attrs : list string).

(** X9: one call of [record] writes to its own buffer and to its own
    target and to nothing else in the store; its buffer gets one more row
    when the call returns, and no buffer changes when the call raises. *)
Theorem record_touches_only_its_own lg w :
  let w' := (Logger.record lg w).1 in
  Logger.next w' = Logger.next w ∧
  (∀ l, l ≠ Logger.buffer lg → Logger.buffers w' l = Logger.buffers w l) ∧
  (∀ l, l ≠ Logger.target lg → Logger.targets w' l = Logger.targets w l) ∧
  match (Logger.record lg w).2 with
  | Ok _ =>
      DataFrameBuffer.length (Logger.buffers w' (Logger.buffer lg)) =
        DataFrameBuffer.length (Logger.buffers w (Logger.buffer lg)) + 1
  | Raise _ => Logger.buffers w' = Logger.buffers w
  end.
Proof.
  destruct (record_spec lg w) as (w1 & _ & Hother & Hnext & Hrec).
  destruct (Logger.observe_all _ _ _).2 as [row|e];
    destruct Hrec as [-> Hbuf]; simpl; rewrite Hbuf; split_and!; try done.
  - intros l Hl. by rewrite fn_lookup_insert_ne.
  - by rewrite fn_lookup_insert, length_append.
Qed.

(** X10: when [observe] is a read, [record] leaves every target of the
    store as it was. *)
Theorem record_pure_leaves_targets lg w (l : nat) :
  Logger.pure_read →
  Logger.targets (Logger.record lg w).1 l = Logger.targets w l.
Proof.
  intros Hpure. destruct (record_spec lg w) as (w1 & Ho & Hother & _ & Hrec).
  rewrite pure_read_observe_all in Ho by done.
  assert ((Logger.record lg w).1 = w1) as ->.
  { by destruct (Logger.observe_all _ _ _).2; destruct Hrec as [-> _]. }
  destruct (decide (l = Logger.target lg)) as [->|Hne]; [done|by apply Hother].
Qed.

(** X11: the first call of [observe] that raises ends [record]: the
    exception is that call's, and the target is left as that call left
    it, the attributes after it not being observed. *)
Theorem record_stops_at_first_raise lg w pre a post obss o1 o2 e :
  Logger.attrs lg = pre ++ a :: post →
  Logger.observed (Logger.targets w (Logger.target lg)) pre obss o1 →
  observe o1 a = (o2, Raise e) →
  (Logger.record lg w).2 = Raise e ∧
  Logger.targets (Logger.record lg w).1 (Logger.target lg) = o2.
Proof.
  intros Hattrs Hobs Hraise.
  destruct (record_spec lg w) as (w' & Ho & _ & _ & Hrec).
  rewrite Hattrs, (observed_then_raise _ _ _ _ _ _ _ _ _ Hobs Hraise) in Ho, Hrec.
  destruct Hrec as [-> _]. done.
Qed.

Lemma records_pure lg w n obss o' :
  Logger.pure_read →
  Logger.observed (Logger.targets w (Logger.target lg)) (Logger.attrs lg) obss o' →
  ∃ w', Logger.records lg n w = (w', Ok ()) ∧
        Logger.buffers w' (Logger.buffer lg) =
          DataFrameBuffer.appends (Logger.buffers w (Logger.buffer lg))
            (replicate n (concat obss)) ∧
        Logger.targets w' (Logger.target lg) = Logger.targets w (Logger.target lg).
Proof.
  intros Hpure. unfold Logger.records. revert w.
  induction n as [|n IH]; intros w Hobs; simpl.
  - by exists w.
  - destruct (record_spec lg w) as (w1 & Ho & _ & _ & Hrec).
    rewrite pure_read_observe_all in Ho by done.
    rewrite (observed_observe_all _ _ _ _ [] Hobs) in Hrec.
    simpl in Hrec. destruct Hrec as [Hrec Hbuf].
    unfold mbind, Logger.M_bind. rewrite Hrec.
    destruct (IH w1) as (w' & Hrun & Hbuf' & Ho'); [by rewrite Ho|].
    exists w'. split; [done|]. split; [|by rewrite Ho', Ho].
    by rewrite Hbuf', Hbuf, fn_lookup_insert.
Qed.

Lemma elem_of_values_of (k : string) (v : option A) row :
  (k, v) ∈ row → v ∈ DataFrameBuffer.values_of k row.
Proof.
  intros Hin. unfold DataFrameBuffer.values_of.
  apply list_elem_of_fmap. exists (k, v). split; [done|].
  by apply list_elem_of_filter.
Qed.

(** X12: a logger built on a target whose [observe] is a read, and which
    reports under pairwise distinct names, at least one, has after [n]
    calls of [record] on the unchanged target a table of [n] rows in
    which the column of each reported name holds its value [n] times. *)
Theorem records_then_to_df (l : nat) attrs w n obss o' :
  Logger.pure_read →
  Logger.observed (Logger.targets w l) attrs obss o' →
  DataFrameBuffer.distinct_names (concat obss) →
  concat obss ≠ [] →
  0 < n →
  ∃ lg w1 w2 df,
    Logger.__init__ l attrs w = (w1, Ok lg) ∧
    Logger.records lg n w1 = (w2, Ok ()) ∧
    Logger.to_df lg w2 = (w2, Ok df) ∧
    pandas.nrows df = n ∧
    ∀ k v, (k, v) ∈ concat obss → pandas.columns df !! k = Some (replicate n v).
Proof.
  intros Hpure Hobs Hrow Hne Hn.
  set (lg := {| Logger.target := l; Logger.target_name := name (Logger.targets w l);
                Logger.attrs := attrs; Logger.buffer := Logger.next w |}).
  set (w1 := {| Logger.targets := Logger.targets w;
                Logger.buffers := <[Logger.next w := DataFrameBuffer.__init__]> (Logger.buffers w);
                Logger.next := S (Logger.next w) |}).
  destruct (records_pure lg w1 n obss o' Hpure Hobs) as (w2 & Hrun & Hbuf & _).
  assert (Logger.buffers w1 (Logger.buffer lg) = DataFrameBuffer.__init__) as Hfresh.
  { cbn. by rewrite fn_lookup_insert. }
  rewrite Hfresh in Hbuf.
  assert (Forall DataFrameBuffer.distinct_names (replicate n (concat obss))) as Hrows.
  { by apply Forall_replicate. }
  assert (∀ k v, (k, v) ∈ concat obss →
            DataFrameBuffer.buf (Logger.buffers w2 (Logger.buffer lg)) !! k =
            Some (replicate n v)) as Hcols.
  { intros k v Hkv. rewrite Hbuf, lookup_appends_distinct by done.
    assert (k ∈ (concat obss).*1) as Hk.
    { apply list_elem_of_fmap. by exists (k, v). }
    rewrite decide_True.
    2:{ destruct n; [lia|]. simpl. rewrite fmap_app. apply elem_of_app. by left. }
    rewrite fmap_replicate. do 2 f_equal.
    apply elem_of_values_of in Hkv. rewrite values_of_cell in Hkv by done.
    by apply list_elem_of_singleton in Hkv. }
  exists lg, w1, w2,
    {| pandas.columns := pandas.infer <$> DataFrameBuffer.buf (Logger.buffers w2 (Logger.buffer lg));
       pandas.nrows := n |}.
  split; [reflexivity|]. split; [exact Hrun|]. split; [|split; [done|]].
  2:{ intros k v Hkv. cbn [pandas.columns].
      rewrite lookup_fmap, (Hcols k v Hkv). simpl.
      by rewrite pandas.infer_replicate. }
  unfold Logger.to_df, Logger.buffer_to_df. f_equal.
  rewrite to_df_aligned.
  - by rewrite Hbuf, length_appends, length_replicate.
  - rewrite Hbuf. by apply aligned_appends; [apply aligned_init|].
  - destruct (concat obss) as [|[k v] row] eqn:Hrow'; [done|].
    intros Hempty. specialize (Hcols k v). rewrite Hempty, lookup_empty in Hcols.
    discriminate Hcols. apply elem_of_cons. by left.
Qed.

End logger_more.

(** * Concrete runs of the further properties *)

Section more_runs.
Import ObservableMixin Sample.

Ltac distinct :=
  unfold DataFrameBuffer.distinct_names; simpl; repeat constructor; set_solver.

Lemma appends_keep_cells_run :
  let b := DataFrameBuffer.append DataFrameBuffer.__init__ [("a", Some 1%Z)] in
  let rows := [[("a", Some 2%Z); ("a", Some 3%Z)]; []; [("b", None)]] in
  DataFrameBuffer.buf b !! "a" = Some [Some 1%Z] ∧
  ∃ more, DataFrameBuffer.buf (DataFrameBuffer.appends b rows) !! "a" = Some ([Some 1%Z] ++ more).
Proof.
  intros b rows.
  assert (DataFrameBuffer.buf b !! "a" = Some [Some 1%Z]) as Hk by (by vm_compute).
  split; [exact Hk|]. exact (appends_keep_cells b rows "a" [Some 1%Z] Hk).
Defined.

Lemma columns_never_shorter_run :
  let rows := [[("a", Some 1%Z); ("a", Some 2%Z)]; [("b", Some 3%Z)]] in
  let b := DataFrameBuffer.appends DataFrameBuffer.__init__ rows in
  DataFrameBuffer.buf b !! "b" = Some [None; Some 3%Z] ∧
  List.length rows ≤ List.length [None; Some 3%Z].
Proof.
  intros rows b.
  assert (DataFrameBuffer.buf b !! "b" = Some [None; Some 3%Z]) as Hk by (by vm_compute).
  split; [exact Hk|]. exact (proj2 (columns_never_shorter rows) "b" _ Hk).
Defined.

Lemma append_existing_column_run :
  let b := DataFrameBuffer.append DataFrameBuffer.__init__ [("a", Some 1%Z)] in
  let row := [("b", Some 2%Z)] in
  DataFrameBuffer.buf b !! "a" = Some [Some 1%Z] ∧
  List.length [Some 1%Z] = DataFrameBuffer.length b ∧
  "a" ∉ row.*1 ∧
  DataFrameBuffer.buf (DataFrameBuffer.append b row) !! "a" = Some ([Some 1%Z] ++ [None]).
Proof.
  intros b row.
  assert (DataFrameBuffer.buf b !! "a" = Some [Some 1%Z]) as Hk by (by vm_compute).
  assert (List.length [Some 1%Z] = DataFrameBuffer.length b) as Hlen by (by vm_compute).
  assert ("a" ∉ row.*1) as Hnot by (subst row; simpl; set_solver).
  split; [exact Hk|]. split; [exact Hlen|]. split; [exact Hnot|].
  exact (proj2 (append_existing_column b row "a" [Some 1%Z] Hk) Hlen Hnot).
Defined.

Lemma appends_is_transpose_run :
  let rows := [[("a", Some 1%Z)]; [("b", Some 2%Z); ("a", None)]; [("b", Some 3%Z)]] in
  let b := DataFrameBuffer.appends DataFrameBuffer.__init__ rows in
  Forall DataFrameBuffer.distinct_names rows ∧
  "b" ∈ (concat rows).*1 ∧
  ∃ col, DataFrameBuffer.buf b !! "b" = Some col ∧
         List.length col = List.length rows ∧
         ∀ i row, rows !! i = Some row → col !! i = Some (DataFrameBuffer.cell "b" row).
Proof.
  intros rows b.
  assert (Forall DataFrameBuffer.distinct_names rows) as Hrows by (subst rows; distinct).
  assert ("b" ∈ (concat rows).*1) as Hin by (subst rows; simpl; set_solver).
  split; [exact Hrows|]. split; [exact Hin|].
  exact (proj1 (appends_is_transpose rows "b" Hrows) Hin).
Defined.

Lemma append_row_order_irrelevant_run :
  let b := DataFrameBuffer.append DataFrameBuffer.__init__ [("a", Some 1%Z)] in
  let row := [("a", Some 2%Z); ("b", Some 3%Z)] in
  let row' := [("b", Some 3%Z); ("a", Some 2%Z)] in
  row ≡ₚ row' ∧
  DataFrameBuffer.distinct_names row ∧
  DataFrameBuffer.append b row = DataFrameBuffer.append b row'.
Proof.
  intros b row row'.
  assert (row ≡ₚ row') as Hperm by apply Permutation_swap.
  assert (DataFrameBuffer.distinct_names row) as Hrow by (subst row; distinct).
  split; [exact Hperm|]. split; [exact Hrow|].
  exact (append_row_order_irrelevant b row row' Hperm Hrow).
Defined.

Lemma pad_idempotent_run :
  let b := DataFrameBuffer.append DataFrameBuffer.__init__ [("a", Some 1%Z)] in
  DataFrameBuffer.aligned b ∧ DataFrameBuffer._pad b = b.
Proof.
  intros b.
  assert (DataFrameBuffer.aligned b) as Hb.
  { apply aligned_append; [apply aligned_init|distinct]. }
  split; [exact Hb|]. exact (proj2 (proj2 (pad_idempotent b)) Hb).
Defined.

Lemma append_None_is_missing_run :
  let b := DataFrameBuffer.append DataFrameBuffer.__init__ [("a", Some 1%Z)] in
  let row := [("b", Some 2%Z)] in
  DataFrameBuffer.buf b !! "a" = Some [Some 1%Z] ∧
  List.length [Some 1%Z] = DataFrameBuffer.length b ∧
  "a" ∉ row.*1 ∧
  DataFrameBuffer.append b (("a", None) :: row) = DataFrameBuffer.append b row.
Proof.
  intros b row.
  assert (DataFrameBuffer.buf b !! "a" = Some [Some 1%Z]) as Hk by (by vm_compute).
  assert (List.length [Some 1%Z] = DataFrameBuffer.length b) as Hlen by (by vm_compute).
  assert ("a" ∉ row.*1) as Hnot by (subst row; simpl; set_solver).
  split; [exact Hk|]. split; [exact Hlen|]. split; [exact Hnot|].
  exact (append_None_is_missing b row "a" [Some 1%Z] Hk Hlen Hnot).
Defined.

Lemma to_df_ok_rows_run :
  let rows := [[("a", Some 1%Z); ("a", Some 2%Z)]] in
  let b := DataFrameBuffer.appends DataFrameBuffer.__init__ rows in
  let df := {| pandas.columns := pandas.infer <$> DataFrameBuffer.buf b; pandas.nrows := 2 |} in
  DataFrameBuffer.to_df b = Ok df ∧
  pandas.columns df ≠ ∅ ∧
  List.length rows ≤ pandas.nrows df.
Proof.
  intros rows b df.
  assert (DataFrameBuffer.to_df b = Ok df) as Hdf by (by vm_compute).
  assert (pandas.columns df ≠ ∅) as Hne.
  { intros He. assert (pandas.columns df !! "a" = None) as Ha by (by rewrite He).
    by vm_compute in Ha. }
  split; [exact Hdf|]. split; [exact Hne|].
  exact (proj1 (proj2 (proj2 (proj2 (to_df_ok_rows rows df Hdf)))) Hne).
Defined.

Lemma record_touches_only_its_own_run :
  let lg := {| Logger.target := 0; Logger.target_name := "in";
               Logger.attrs := ["avg_act"]; Logger.buffer := 0 |} in
  1 ≠ Logger.buffer lg ∧
  Logger.buffers (Logger.record lg w0).1 1 = Logger.buffers w0 1.
Proof.
  intros lg.
  assert (1 ≠ Logger.buffer lg) as Hne by (simpl; lia).
  split; [exact Hne|].
  exact (proj1 (proj2 (record_touches_only_its_own lg w0)) 1 Hne).
Defined.

Lemma record_pure_leaves_targets_run :
  let lg := {| Logger.target := 0; Logger.target_name := "in";
               Logger.attrs := ["avg_act"; "unit_act"]; Logger.buffer := 0 |} in
  Logger.pure_read (A := Z) (T := layer) ∧
  Logger.targets (Logger.record lg w0).1 0 = Logger.targets w0 0.
Proof.
  intros lg. split; [exact sample_pure_read|].
  exact (record_pure_leaves_targets lg w0 0 sample_pure_read).
Defined.

(** On the counting target, [record] with an unknown second attribute
    ends after two calls of [observe] out of four. *)
Lemma record_stops_at_first_raise_run :
  let lg := {| Logger.target := 0; Logger.target_name := "counter";
               Logger.attrs := ["a"; "bogus"; "c"; "d"]; Logger.buffer := 0 |} in
  let o := Logger.targets Counter.w0 0 in
  let o1 := {| name := "counter"; fields := 1 |} in
  let o2 := {| name := "counter"; fields := 2 |} in
  @Logger.observed Z nat Counter.counter_observe o ["a"] [[("a", Some 0%Z)]] o1 ∧
  Counter.counter_observe o1 "bogus" = (o2, Raise (ValueError "bogus")) ∧
  (@Logger.record Z nat Counter.counter_observe lg Counter.w0).2 =
    Raise (ValueError "bogus") ∧
  Logger.targets (@Logger.record Z nat Counter.counter_observe lg Counter.w0).1 0 = o2.
Proof.
  intros lg o o1 o2.
  assert (@Logger.observed Z nat Counter.counter_observe o ["a"] [[("a", Some 0%Z)]] o1)
    as Hobs.
  { eapply Logger.observed_cons; [reflexivity|apply Logger.observed_nil]. }
  assert (Counter.counter_observe o1 "bogus" = (o2, Raise (ValueError "bogus")))
    as Hraise by reflexivity.
  split; [exact Hobs|]. split; [exact Hraise|].
  exact (@record_stops_at_first_raise Z nat Counter.counter_observe lg Counter.w0
           ["a"] "bogus" ["c"; "d"] _ o1 o2 _ eq_refl Hobs Hraise).
Defined.

Lemma records_then_to_df_run :
  let attrs := ["avg_act"; "unit_act"] in
  let o := Logger.targets w0 0 in
  let obss := [[("avg_act", Some 2%Z)];
               [("unit0_act", Some 0%Z); ("unit1_act", Some 4%Z)]] in
  Logger.pure_read (A := Z) (T := layer) ∧
  Logger.observed o attrs obss o ∧
  DataFrameBuffer.distinct_names (concat obss) ∧
  concat obss ≠ [] ∧
  0 < 3 ∧
  ∃ lg w1 w2 df,
    Logger.__init__ 0 attrs w0 = (w1, Ok lg) ∧
    Logger.records lg 3 w1 = (w2, Ok ()) ∧
    Logger.to_df lg w2 = (w2, Ok df) ∧
    pandas.nrows df = 3 ∧
    ∀ k v, (k, v) ∈ concat obss → pandas.columns df !! k = Some (replicate 3 v).
Proof.
  intros attrs o obss.
  assert (Logger.observed o attrs obss o) as Hobs.
  { eapply Logger.observed_cons; [reflexivity|].
    eapply Logger.observed_cons; [reflexivity|apply Logger.observed_nil]. }
  assert (DataFrameBuffer.distinct_names (concat obss)) as Hrow by (subst obss; distinct).
  assert (concat obss ≠ []) as Hne by done.
  assert (0 < 3) as Hn by lia.
  split; [exact sample_pure_read|]. split; [exact Hobs|]. split; [exact Hrow|].
  split; [exact Hne|]. split; [exact Hn|].
  exact (records_then_to_df 0 attrs w0 3 obss o sample_pure_read Hobs Hrow Hne Hn).
Defined.

End more_runs.

(** * The work of a run of [append] calls *)

Section cost_more.
Context {A : Type}.
Implicit Types (b : DataFrameBuffer.t A) (row : list (string * option A)).
Implicit Types (rows : list (list (string * option A))) (k : string).

Lemma dom_appends_subseteq b rows :
  dom (DataFrameBuffer.buf b) ⊆ dom (DataFrameBuffer.buf (DataFrameBuffer.appends b rows)).
Proof.
  unfold DataFrameBuffer.appends. revert b.
  induction rows as [|row rows IH]; intros b; simpl; [done|].
  etrans; [|apply IH]. rewrite dom_append. set_solver.
Qed.

Lemma size_dom_append b row :
  size (dom (DataFrameBuffer.buf (DataFrameBuffer.append b row))) =
  size (dom (DataFrameBuffer.buf b)) + DataFrameBuffer.introduced b row.
Proof.
  rewrite dom_append. unfold DataFrameBuffer.introduced.
  set (K := list_to_set row.*1 : gset string).
  set (D := dom (DataFrameBuffer.buf b)).
  replace (D ∪ K) with (D ∪ K ∖ D).
  2:{ apply set_eq. intros k. destruct (decide (k ∈ D)); set_solver. }
  by rewrite (size_union (C := gset string) D) by set_solver.
Qed.

Lemma missing_le_columns b row :
  DataFrameBuffer.missing b row ≤ size (dom (DataFrameBuffer.buf b)).
Proof. unfold DataFrameBuffer.missing. apply subseteq_size. set_solver. Qed.

Lemma appends_cost_bound_from b rows :
  DataFrameBuffer.aligned b →
  Forall DataFrameBuffer.distinct_names rows →
  let columns := size (dom (DataFrameBuffer.buf (DataFrameBuffer.appends b rows))) in
  DataFrameBuffer.appends_cost b rows ≤
    2 * List.length (concat rows) + 2 * (List.length rows * columns) +
    (DataFrameBuffer.length b + List.length rows) *
      (columns - size (dom (DataFrameBuffer.buf b))).
Proof.
  intros Hb Hrows. revert b Hb.
  induction Hrows as [|row rows Hrow Hrows IH]; intros b Hb; [simpl; lia|].
  specialize (IH (DataFrameBuffer.append b row) (aligned_append b row Hb Hrow)).
  cbv zeta in *. rewrite length_append, size_dom_append in IH.
  cbn [DataFrameBuffer.appends_cost concat List.length].
  rewrite append_cost_eq by done. rewrite length_app.
  unfold DataFrameBuffer.appends in *. cbn [foldl].
  pose proof (missing_le_columns b row) as Hmissing.
  pose proof (subseteq_size _ _ (dom_appends_subseteq (DataFrameBuffer.append b row) rows))
    as Hgrow.
  unfold DataFrameBuffer.appends in Hgrow. rewrite size_dom_append in Hgrow.
  set (C := size (dom (DataFrameBuffer.buf
                         (foldl DataFrameBuffer.append (DataFrameBuffer.append b row) rows)))) in *.
  set (D := size (dom (DataFrameBuffer.buf b))) in *.
  set (I := DataFrameBuffer.introduced b row) in *.
  set (M := DataFrameBuffer.missing b row) in *.
  set (n := DataFrameBuffer.length b) in *.
  set (L := List.length rows) in *.
  set (cost := DataFrameBuffer.appends_cost (DataFrameBuffer.append b row) rows) in *.
  assert (C - D = (C - (D + I)) + I) as -> by lia.
  nia.
Qed.

(** X15: the work of a run of [append] calls from the empty buffer, with
    rows of pairwise distinct names, is at most twice the number of
    observations plus three times the size of the table (rows times
    columns) the run builds. *)
Theorem appends_cost_bound rows :
  Forall DataFrameBuffer.distinct_names rows →
  DataFrameBuffer.appends_cost DataFrameBuffer.__init__ rows ≤
    2 * List.length (concat rows) +
    3 * (List.length rows *
         size (dom (DataFrameBuffer.buf (DataFrameBuffer.appends DataFrameBuffer.__init__ rows)))).
Proof.
  intros Hrows.
  pose proof (appends_cost_bound_from DataFrameBuffer.__init__ rows aligned_init Hrows) as Hb.
  simpl in Hb. rewrite dom_empty_L, size_empty in Hb. lia.
Qed.

End cost_more.

Section cost_runs.

Lemma appends_cost_bound_run :
  let rows := [[("a", Some 1%Z)]; []; [("b", Some 2%Z); ("a", None)]] in
  Forall DataFrameBuffer.distinct_names rows ∧
  DataFrameBuffer.appends_cost DataFrameBuffer.__init__ rows ≤
    2 * List.length (concat rows) +
    3 * (List.length rows *
         size (dom (DataFrameBuffer.buf (DataFrameBuffer.appends DataFrameBuffer.__init__ rows)))).
Proof.
  intros rows.
  assert (Forall DataFrameBuffer.distinct_names rows) as Hrows.
  { subst rows. unfold DataFrameBuffer.distinct_names. simpl.
    repeat constructor; set_solver. }
  split; [exact Hrows|]. exact (appends_cost_bound rows Hrows).
Defined.

End cost_runs.
